(** * The mock car-shop API server (server.js)

    A shallow embedding of the request-handling surface of [server.js]:
    the fixture store, the [fakeAuth] middleware, the validation chains of
    the two POST routes and the five route handlers.

    Conventions of the model.
    - The fixture objects keyed by identifier ([users], [cars],
      [customers]) are plain JavaScript objects; a property read on such
      an object also finds the members it inherits from
      [Object.prototype].  [prop] models the read, [Lookup] its result.
    - A request carries its headers and its parsed JSON body
      ([req.headers], [req.body]).  A body is a JSON object whose field
      values are JSON scalars (null, booleans, integer-valued numbers,
      strings); an absent field reads as [None] (JavaScript's
      [undefined]).
    - [Date.now()] is an input of the handler that reads it.  The other
      [Date] operations and the ISO-8601 recogniser of the validation
      library are taken as the record [Runtime.t].
    - A handler returns an [Outcome]: the response it sends and the lines
      it writes to the console.
    - What a request leaves behind is stated on a second rendering of the
      middleware and the handlers, [Stateful], as actions on the process
      state (the collections and the console); [stateful_serve] relates
      the two renderings. *)

From Stdlib Require Import ZArith String Ascii List Bool Lia.
From stdpp Require Import base option gmap strings pretty list fin_maps.
Import ListNotations.
Local Open Scope string_scope.
Local Open Scope Z_scope.

(* ================================================================== *)
(** ** JavaScript values and property reads                            *)
(* ================================================================== *)

(** JSON scalars, the values of the fields of a request body. *)
Inductive jsval :=
| JNull
| JBool (b : bool)
| JNum (n : Z)
| JStr (s : string).

#[global] Instance jsval_eq_dec : EqDecision jsval.
Proof. solve_decision. Defined.

(** The own property names of [Object.prototype]: every plain object
    answers a read of one of these with the inherited member (a function,
    or for [__proto__] the prototype object itself), all of them truthy. *)
Definition object_prototype_members : list string :=
  [ "constructor"; "__defineGetter__"; "__defineSetter__"; "hasOwnProperty";
    "__lookupGetter__"; "__lookupSetter__"; "isPrototypeOf";
    "propertyIsEnumerable"; "toString"; "valueOf"; "__proto__";
    "toLocaleString" ].

Definition is_prototype_member (k : string) : bool :=
  bool_decide (k ∈ object_prototype_members).

(** Result of [obj[key]] on a plain object holding values of type [A]. *)
Inductive Lookup (A : Type) :=
| Own (a : A)
| Inherited (member : string)
| Undefined.
Arguments Own {A} a.
Arguments Inherited {A} member.
Arguments Undefined {A}.

(** [obj[k]]: the own property when there is one, else what the prototype
    chain provides. *)
Definition prop {A} (obj : gmap string A) (k : string) : Lookup A :=
  match obj !! k with
  | Some a => Own a
  | None => if is_prototype_member k then Inherited k else Undefined
  end.

(** JavaScript truthiness of a read: only [undefined] is falsy here
    (records and inherited members are objects or functions). *)
Definition truthy {A} (l : Lookup A) : bool :=
  match l with
  | Undefined => false
  | _ => true
  end.

(* ================================================================== *)
(** ** Data model                                                      *)
(* ================================================================== *)

Module User.
Record t := mk
  { id : string; name : string; email : string;
    role : string; profileId : string }.
End User.

Module Car.
Record t := mk
  { id : string; make : string; model : string; year : Z;
    color : string; licensePlate : string; carType : string }.
End Car.

Module Customer.
Record t := mk
  { id : string; name : string; email : string; phone : string;
    address : string; cars : list Car.t }.
End Customer.

Module Prices.
Record t := mk { HATCHBACK : Z; SEDAN : Z; SUV : Z }.
End Prices.

Module Offering.
Record t := mk
  { id : string; name : string; description : string;
    durationMins : Z; prices : Prices.t }.
End Offering.

Module Appointment.
Record t := mk
  { id : string; scheduledTime : string; status : string; totalCost : Z;
    customer : Customer.t; car : Car.t; offering : Offering.t }.
End Appointment.

(** The "fake database": the five top-level constants of the file. *)
Record Store := mkStore
  { users : gmap string User.t;
    cars : gmap string Car.t;
    customers : gmap string Customer.t;
    offerings : list Offering.t;
    appointments : list Appointment.t }.

(** The platform operations the program calls and that are not written
    in it: the [Date] methods and validator.js's ISO-8601 recogniser. *)
Module Runtime.
Record t := mk
  { (** [validator.isISO8601(str)] *)
    isISO8601 : string -> bool;
    (** [new Date(v).getHours()]; [None] is [NaN] (an invalid date) *)
    getHours : jsval -> option Z;
    (** [new Date(ms).toISOString()] *)
    toISOString : Z -> string;
    (** [new Date(ms).getFullYear()], in the server's time zone *)
    getFullYear : Z -> Z }.
End Runtime.

(* ================================================================== *)
(** ** Requests, responses, outcomes                                   *)
(* ================================================================== *)

Module Request.
Record t := mk
  { headers : gmap string string;
    body : gmap string jsval }.
End Request.

(** Modelled from the spec: one entry of [errors.array()], the field a
    rule is declared on and the message of the rule. *)
Module FieldError.
Record t := mk { field : string; message : string }.
End FieldError.

(** What is passed to [res.json]. *)
Inductive Payload :=
| Message (message : string)                 (* { message: ... } *)
| Errors (errors : list FieldError.t)        (* { errors: errors.array() } *)
| CustomerBody (c : Customer.t)
| BuiltinBody (member : string)              (* an inherited member *)
| AppointmentList (l : list Appointment.t)
| OfferingList (l : list Offering.t)
| ObjectBody (o : gmap string jsval).

Module Response.
Record t := mk { status : Z; payload : Payload }.
End Response.

(** [res.json(x)] without [res.status] answers 200. *)
Definition json (p : Payload) : Response.t := Response.mk 200 p.
Definition status_json (code : Z) (p : Payload) : Response.t :=
  Response.mk code p.

(** A line written by [console.log]. *)
Inductive LogLine :=
| LogNewCar (newCar : gmap string jsval)
| LogNewAppointment (body : gmap string jsval).

Module Outcome.
Record t := mk { response : Response.t; console : list LogLine }.
End Outcome.

Definition quiet (r : Response.t) : Outcome.t := Outcome.mk r [].

(** The identity attached to the request, [req.user]. *)
Definition Identity := Lookup User.t.

(** [req.user.role]: a user record has the field; no member inherited
    from [Object.prototype] has a property of that name, so the read is
    [undefined]. *)
Definition role_of (u : Identity) : option string :=
  match u with
  | Own r => Some (User.role r)
  | _ => None
  end.

Definition profileId_of (u : Identity) : option string :=
  match u with
  | Own r => Some (User.profileId r)
  | _ => None
  end.

(** A middleware either answers the request or calls [next()]. *)
Inductive Step :=
| Respond (r : Response.t)
| Next (user : Identity).

(* ================================================================== *)
(** ** The fixtures                                                    *)
(* ================================================================== *)

Definition user_1 : User.t :=
  User.mk "user-1" "John Customer" "customer@carshop.com" "CUSTOMER" "cust-1".
Definition user_2 : User.t :=
  User.mk "user-2" "Jane Doe" "employee@carshop.com" "EMPLOYEE" "emp-1".
Definition user_3 : User.t :=
  User.mk "user-3" "Shop Owner" "owner@carshop.com" "OWNER" "owner-1".

Definition fixture_users : gmap string User.t :=
  {[ "customer@carshop.com" := user_1;
     "employee@carshop.com" := user_2;
     "owner@carshop.com" := user_3 ]}.

Definition car_1 : Car.t :=
  Car.mk "car-1" "Honda" "City" 2023 "White" "MH14XY5678" "SEDAN".
Definition car_2 : Car.t :=
  Car.mk "car-2" "Maruti" "Swift" 2022 "Red" "MH12AB1234" "HATCHBACK".

Definition fixture_cars : gmap string Car.t :=
  {[ "car-1" := car_1; "car-2" := car_2 ]}.

(** [cars: [cars["car-1"], cars["car-2"]]] *)
Definition cust_1 : Customer.t :=
  Customer.mk "cust-1" "John Customer" "customer@carshop.com" "9876543210"
    "123 Main St, Pune" [car_1; car_2].

Definition fixture_customers : gmap string Customer.t :=
  {[ "cust-1" := cust_1 ]}.

Definition offering_1 : Offering.t :=
  Offering.mk "offering-1" "Premium Wash"
    "Full exterior and interior cleaning." 45 (Prices.mk 300 350 400).
Definition offering_2 : Offering.t :=
  Offering.mk "offering-2" "Ceramic Coating (3 Year)"
    "Full body ceramic coating." 2880 (Prices.mk 20000 25000 30000).
Definition offering_3 : Offering.t :=
  Offering.mk "offering-3" "PPF - Full Front"
    "Paint Protection Film." 600 (Prices.mk 35000 40000 45000).

Definition fixture_offerings : list Offering.t :=
  [offering_1; offering_2; offering_3].

Section Program.

Context (rt : Runtime.t).

(** [appointments]; [t0] is what [Date.now()] returns when the module is
    loaded.  The embedded records are [customers["cust-1"]],
    [cars["car-1"]] and [offerings[0]]. *)
Definition fixture_appointments (t0 : Z) : list Appointment.t :=
  [ Appointment.mk "appt-1"
      (Runtime.toISOString rt (t0 + 3 * 24 * 60 * 60 * 1000))
      "SCHEDULED" 350 cust_1 car_1 offering_1 ].

Definition fixtures (t0 : Z) : Store :=
  mkStore fixture_users fixture_cars fixture_customers fixture_offerings
    (fixture_appointments t0).

(* ================================================================== *)
(** ** fakeAuth                                                        *)
(* ================================================================== *)

Definition unauthorized : Response.t :=
  status_json 401
    (Message "Unauthorized: Please provide a valid 'x-user-email' header.").

(** [!userEmail]: the header is absent or the empty string. *)
Definition header_falsy (h : option string) : bool :=
  match h with
  | None => true
  | Some s => bool_decide (s = "")
  end.

(** The property key a value denotes in [obj[v]]; [undefined] reads the
    property named "undefined". *)
Definition property_key (v : option string) : string :=
  match v with
  | Some s => s
  | None => "undefined"
  end.

Definition fakeAuth (db : Store) (req : Request.t) : Step :=
  let userEmail := Request.headers req !! "x-user-email" in
  if header_falsy userEmail
     || negb (truthy (prop (users db) (property_key userEmail)))
  then Respond unauthorized
  else Next (prop (users db) (property_key userEmail)).

(** A route [app.METHOD(path, fakeAuth, ..., handler)]: the handler runs
    only when [fakeAuth] calls [next()]. *)
Definition route (db : Store) (handler : Identity -> Request.t -> Outcome.t)
    (req : Request.t) : Outcome.t :=
  match fakeAuth db req with
  | Respond r => quiet r
  | Next user => handler user req
  end.

(* ================================================================== *)
(** ** GET handlers                                                    *)
(* ================================================================== *)

Definition forbidden : Response.t :=
  status_json 403
    (Message "Forbidden: Only customers can access this profile.").

Definition profile_not_found : Response.t :=
  status_json 404 (Message "Customer profile not found.").

(** GET /api/profile *)
Definition get_profile (db : Store) (user : Identity) (req : Request.t)
  : Outcome.t :=
  if bool_decide (role_of user <> Some "CUSTOMER") then quiet forbidden
  else
    let customerProfile :=
      prop (customers db) (property_key (profileId_of user)) in
    match customerProfile with
    | Undefined => quiet profile_not_found
    | Own c => quiet (json (CustomerBody c))
    | Inherited m => quiet (json (BuiltinBody m))
    end.

(** GET /api/profile/appointments *)
Definition get_profile_appointments (db : Store) (user : Identity)
    (req : Request.t) : Outcome.t :=
  quiet (json (AppointmentList (appointments db))).

(** GET /api/offerings *)
Definition list_offerings (db : Store) (user : Identity) (req : Request.t)
  : Outcome.t :=
  quiet (json (OfferingList (offerings db))).

(* ================================================================== *)
(** ** Request validation                                              *)
(* ================================================================== *)

(** Modelled from the spec: the validators judge the string form of a
    field.  [undefined] and [null] give the empty string, the other
    scalars [String(value)]. *)
Definition toString (v : option jsval) : string :=
  match v with
  | None | Some JNull => ""
  | Some (JBool true) => "true"
  | Some (JBool false) => "false"
  | Some (JNum n) => pretty n
  | Some (JStr s) => s
  end.

Definition digit_value (c : ascii) : option Z :=
  let n := Z.of_N (N_of_ascii c) in
  if (48 <=? n) && (n <=? 57) then Some (n - 48) else None.

Fixpoint digits (acc : Z) (s : string) : option Z :=
  match s with
  | EmptyString => Some acc
  | String c s' =>
      match digit_value c with
      | Some d => digits (10 * acc + d) s'
      | None => None
      end
  end.

(** A string that starts with a decimal digit. *)
Definition digit_headed (s : string) : Prop :=
  exists c s' d, s = String c s' /\ digit_value c = Some d.

(** One or more decimal digits. *)
Definition unsigned_int (s : string) : option Z :=
  match s with
  | EmptyString => None
  | _ => digits 0 s
  end.

(** The number denoted by a string of the form [[-+]?[0-9]+]. *)
Definition parse_int (s : string) : option Z :=
  match s with
  | String "+"%char s' => unsigned_int s'
  | String "-"%char s' => Z.opp <$> unsigned_int s'
  | _ => unsigned_int s
  end.

(** The validators the routes use. *)
Inductive Validator :=
| notEmpty
| isInt (min max : Z)
| isISO8601.

(** Modelled from the spec: the validation library (express-validator,
    over validator.js) is not among the sources.  Its rules are presence
    (a non-empty string form), integer range, and ISO-8601
    parseability.  [accepts v str] is the verdict of validator [v] on the
    string form of a field. *)
Definition accepts (v : Validator) (str : string) : bool :=
  match v with
  | notEmpty => negb (bool_decide (str = ""))
  | isInt min max =>
      match parse_int str with
      | Some n => (min <=? n) && (n <=? max)
      | None => false
      end
  | isISO8601 => Runtime.isISO8601 rt str
  end.

(** [body(path).validator().withMessage(message)] *)
Record Chain := mkChain
  { path : string; validator : Validator; withMessage : string }.

(** The error entry of a chain: its field and its message. *)
Definition entry (c : Chain) : FieldError.t :=
  FieldError.mk (path c) (withMessage c).

(** The rule of chain [c] fails on the request. *)
Definition violated (req : Request.t) (c : Chain) : bool :=
  negb (accepts (validator c) (toString (Request.body req !! path c))).

(** Modelled from the spec: running one chain against the request body
    appends its entry to the request's error list when the rule fails,
    and calls [next()] either way. *)
Definition run_chain (req : Request.t) (c : Chain) : list FieldError.t :=
  if accepts (validator c) (toString (Request.body req !! path c))
  then []
  else [entry c].

(** Modelled from the spec: [validationResult(req).array()], the entries
    of all chains of the route, in the order the chains are declared. *)
Definition validationResult (chains : list Chain) (req : Request.t)
  : list FieldError.t :=
  flat_map (run_chain req) chains.

(** [errors.isEmpty()] *)
Definition isEmpty (errors : list FieldError.t) : bool :=
  match errors with
  | [] => true
  | _ => false
  end.

(* ================================================================== *)
(** ** POST handlers                                                   *)
(* ================================================================== *)

(** The chains of POST /api/profile/cars; [maxYear] is
    [new Date().getFullYear() + 1], computed once when the route is
    registered. *)
Definition car_chains (maxYear : Z) : list Chain :=
  [ mkChain "make" notEmpty "Make is required";
    mkChain "model" notEmpty "Model is required";
    mkChain "year" (isInt 1980 maxYear) "Please enter a valid year";
    mkChain "color" notEmpty "Color is required";
    mkChain "licensePlate" notEmpty "License plate is required" ].

(** [{ id: `car-${Date.now()}`, ...req.body, carType: null }] *)
Definition newCar (now : Z) (body : gmap string jsval) : gmap string jsval :=
  <["carType" := JNull]> (body ∪ {[ "id" := JStr ("car-" +:+ pretty now) ]}).

(** POST /api/profile/cars; [now] is what [Date.now()] returns. *)
Definition add_car (maxYear : Z) (now : Z) (user : Identity)
    (req : Request.t) : Outcome.t :=
  let errors := validationResult (car_chains maxYear) req in
  if negb (isEmpty errors) then quiet (status_json 400 (Errors errors))
  else
    let car := newCar now (Request.body req) in
    Outcome.mk (status_json 201 (ObjectBody car)) [LogNewCar car].

Definition appointment_chains : list Chain :=
  [ mkChain "carId" notEmpty "Car selection is required";
    mkChain "offeringId" notEmpty "Service selection is required";
    mkChain "scheduledTime" isISO8601 "A valid date and time is required" ].

Definition slot_unavailable : Response.t :=
  status_json 400
    (Message
       "The selected time slot is unavailable. Please choose another time.").

Definition booked : Response.t :=
  status_json 201 (Message "Appointment booked successfully!").

(** [new Date(v).getHours()]; [new Date(undefined)] is an invalid date. *)
Definition hour_of (v : option jsval) : option Z :=
  v ≫= Runtime.getHours rt.

(** [hour >= 10 && hour <= 12]; both comparisons are false on [NaN]. *)
Definition in_busy_window (hour : option Z) : bool :=
  match hour with
  | Some h => (10 <=? h) && (h <=? 12)
  | None => false
  end.

(** POST /api/appointments *)
Definition add_appointment (user : Identity) (req : Request.t) : Outcome.t :=
  let errors := validationResult appointment_chains req in
  if negb (isEmpty errors) then quiet (status_json 400 (Errors errors))
  else
    let body := Request.body req in
    if bool_decide (body !! "offeringId" = Some (JStr "offering-1"))
       && in_busy_window (hour_of (body !! "scheduledTime"))
    then quiet slot_unavailable
    else Outcome.mk booked [LogNewAppointment body].

(* ================================================================== *)
(** ** The server                                                      *)
(* ================================================================== *)

Inductive Endpoint :=
| GET_profile
| GET_profile_appointments
| GET_offerings
| POST_profile_cars
| POST_appointments.

(** What the process holds once the module is loaded. *)
Record Server := mkServer { db : Store; maxYear : Z }.

(** Loading the module: [t0] is the clock when [appointments] is built,
    [t1] the clock when the car route is registered. *)
Definition boot (t0 t1 : Z) : Server :=
  mkServer (fixtures t0) (Runtime.getFullYear rt t1 + 1).

Definition handler (srv : Server) (now : Z) (ep : Endpoint)
  : Identity -> Request.t -> Outcome.t :=
  match ep with
  | GET_profile => get_profile (db srv)
  | GET_profile_appointments => get_profile_appointments (db srv)
  | GET_offerings => list_offerings (db srv)
  | POST_profile_cars => add_car (maxYear srv) now
  | POST_appointments => add_appointment
  end.

(** The validation chains declared on a route. *)
Definition chains_of (srv : Server) (ep : Endpoint) : list Chain :=
  match ep with
  | POST_profile_cars => car_chains (maxYear srv)
  | POST_appointments => appointment_chains
  | _ => []
  end.

Definition serve (srv : Server) (now : Z) (ep : Endpoint) (req : Request.t)
  : Outcome.t :=
  route (db srv) (handler srv now ep) req.

(** A request arriving at an endpoint, with the clock at that moment. *)
Record Event := mkEvent { clock : Z; endpoint : Endpoint; request : Request.t }.

(** Serving one request: the outcome, paired with the server it was
    served by.  That serving hands the collections on unchanged is shown
    on the actions of [Stateful], see [handlers_never_write]. *)
Definition step (srv : Server) (ev : Event) : Server * Outcome.t :=
  (srv, serve srv (clock ev) (endpoint ev) (request ev)).

(** Serving a sequence of requests in order. *)
Fixpoint run (srv : Server) (evs : list Event) : Server * list Outcome.t :=
  match evs with
  | [] => (srv, [])
  | ev :: evs' =>
      let '(srv1, o) := step srv ev in
      let '(srv2, os) := run srv1 evs' in
      (srv2, o :: os)
  end.

Definition is_get (ep : Endpoint) : bool :=
  match ep with
  | GET_profile | GET_profile_appointments | GET_offerings => true
  | _ => false
  end.

End Program.

(* ================================================================== *)
(** ** A concrete runtime                                              *)
(* ================================================================== *)

(** A runtime for a server whose time zone is UTC, used to evaluate the
    model on concrete requests.  Its ISO-8601 recogniser knows the one
    layout [YYYY-MM-DDTHH:MM] (a local date-time, the form an
    [<input type="datetime-local">] submits). *)
Module Sample.

Definition is_digit (c : ascii) : bool :=
  match digit_value c with
  | Some _ => true
  | None => false
  end.

(** [layout] describes a string: [d] stands for a digit, any other
    character for itself. *)
Fixpoint matches (layout s : string) : bool :=
  match layout, s with
  | EmptyString, EmptyString => true
  | String l layout', String c s' =>
      (if Ascii.eqb l "d" then is_digit c else Ascii.eqb l c)
      && matches layout' s'
  | _, _ => false
  end.

Definition isISO8601 (s : string) : bool :=
  matches "dddd-dd-ddTdd:dd" s
  && match digits 0 (substring 11 2 s), digits 0 (substring 14 2 s) with
     | Some h, Some m => (h <? 24) && (m <? 60)
     | _, _ => false
     end.

(** A date-time without offset is read as local time, so the hour is
    the one written. *)
Definition getHours (v : jsval) : option Z :=
  match v with
  | JStr s => if isISO8601 s then digits 0 (substring 11 2 s) else None
  | _ => None
  end.

Definition ms_per_day : Z := 24 * 60 * 60 * 1000.

(** Year, month and day of the proleptic Gregorian calendar for a day
    count since 1970-01-01. *)
Definition civil (days : Z) : Z * Z * Z :=
  let z := days + 719468 in
  let era := z / 146097 in
  let doe := z - era * 146097 in
  let yoe := (doe - doe / 1460 + doe / 36524 - doe / 146096) / 365 in
  let doy := doe - (365 * yoe + yoe / 4 - yoe / 100) in
  let mp := (5 * doy + 2) / 153 in
  let d := doy - (153 * mp + 2) / 5 + 1 in
  let m := if mp <? 10 then mp + 3 else mp - 9 in
  let y := yoe + era * 400 + (if m <=? 2 then 1 else 0) in
  (y, m, d).

Definition getFullYear (ms : Z) : Z :=
  let '(y, _, _) := civil (ms / ms_per_day) in y.

Fixpoint zeros (n : nat) : string :=
  match n with
  | O => ""
  | S n' => String "0" (zeros n')
  end.

(** Decimal, left-padded with zeros to [width] characters. *)
Definition pad (width : nat) (n : Z) : string :=
  let s := pretty n in
  zeros (width - String.length s) +:+ s.

Definition toISOString (ms : Z) : string :=
  let '(y, m, d) := civil (ms / ms_per_day) in
  let r := ms mod ms_per_day in
  pad 4 y +:+ "-" +:+ pad 2 m +:+ "-" +:+ pad 2 d +:+ "T"
  +:+ pad 2 (r / 3600000) +:+ ":" +:+ pad 2 (r / 60000 mod 60) +:+ ":"
  +:+ pad 2 (r / 1000 mod 60) +:+ "." +:+ pad 3 (r mod 1000) +:+ "Z".

Definition runtime : Runtime.t :=
  Runtime.mk isISO8601 getHours toISOString getFullYear.

(** 2026-01-15T08:00:00.000Z *)
Definition t_boot : Z := 1768464000000.

Definition server : Server := boot runtime t_boot t_boot.

Definition request (email : string) (body : gmap string jsval)
  : Request.t :=
  Request.mk {[ "x-user-email" := email ]} body.

Definition yaris : gmap string jsval :=
  {[ "make" := JStr "Toyota"; "model" := JStr "Yaris"; "year" := JNum 2021;
     "color" := JStr "Blue"; "licensePlate" := JStr "MH01AA0001" ]}.

Definition booking (offeringId scheduledTime : string)
  : gmap string jsval :=
  {[ "carId" := JStr "car-1"; "offeringId" := JStr offeringId;
     "scheduledTime" := JStr scheduledTime ]}.

End Sample.

(* ================================================================== *)
(** ** Vocabulary for the statements                                   *)
(* ================================================================== *)

(** The requests [fakeAuth] answers itself: the header is missing or
    empty, or [users] has neither an own nor an inherited property of
    that name. *)
Definition turned_away (db : Store) (req : Request.t) : Prop :=
  match Request.headers req !! "x-user-email" with
  | None => True
  | Some e =>
      e = "" \/ (users db !! e = None /\ e ∉ object_prototype_members)
  end.

(** The status codes written in the handler of each route. *)
Definition handler_statuses (ep : Endpoint) : list Z :=
  match ep with
  | GET_profile => [403; 404; 200]
  | GET_profile_appointments => [200]
  | GET_offerings => [200]
  | POST_profile_cars => [400; 201]
  | POST_appointments => [400; 201]
  end.

(** The number of responses with status 201 among some outcomes. *)
Definition created (outs : list Outcome.t) : nat :=
  length
    (List.filter
       (fun o => Response.status (Outcome.response o) =? 201) outs).

(** All lines written to the console by some outcomes, in order. *)
Definition console_of (outs : list Outcome.t) : list LogLine :=
  flat_map Outcome.console outs.

(* ================================================================== *)
(** ** The process state, and the routes as actions on it              *)
(* ================================================================== *)

(** What the running process holds and can change: the contents of the
    five collections (the bindings are [const], the objects they name are
    not frozen) and what has been written to the console. *)
Record Process := mkProcess { store : Store; stdout : list LogLine }.

(** The process just after the module is loaded at clock [t0]. *)
Definition loaded (rt : Runtime.t) (t0 : Z) : Process :=
  mkProcess (fixtures rt t0) [].

(** Code that runs against the process state. *)
Module Action.

Definition t (A : Type) : Type := Process -> A * Process.

Definition ret {A} (a : A) : t A := fun p => (a, p).

Definition bind {A B} (m : t A) (k : A -> t B) : t B :=
  fun p => let '(a, p') := m p in k a p'.

(** Reading the collections. *)
Definition read : t Store := fun p => (store p, p).

(** Writing to the collections: an assignment to a property of one of
    them, a [push], a [delete]. *)
Definition write (f : Store -> Store) : t unit :=
  fun p => (tt, mkProcess (f (store p)) (stdout p)).

(** [console.log(...)] *)
Definition console_log (l : LogLine) : t unit :=
  fun p => (tt, mkProcess (store p) (stdout p ++ [l])).

End Action.

Notation "x <- m ;; k" := (Action.bind m (fun x => k))
  (at level 100, m at next level, k at level 200, right associativity).
Notation "m ;; k" := (Action.bind m (fun _ => k))
  (at level 100, k at level 200, right associativity).

(** The middleware and the handlers once more, statement by statement,
    as actions: each reads the collections where the source names them,
    logs where the source logs, and returns the response it sends. *)
Module Stateful.

Section Handlers.

Context (rt : Runtime.t).

Definition fakeAuth (req : Request.t) : Action.t Step :=
  let userEmail := Request.headers req !! "x-user-email" in
  db <- Action.read ;;
  if header_falsy userEmail
     || negb (truthy (prop (users db) (property_key userEmail)))
  then Action.ret (Respond unauthorized)
  else Action.ret (Next (prop (users db) (property_key userEmail))).

Definition get_profile (user : Identity) (req : Request.t)
  : Action.t Response.t :=
  if bool_decide (role_of user <> Some "CUSTOMER")
  then Action.ret forbidden
  else
    db <- Action.read ;;
    match prop (customers db) (property_key (profileId_of user)) with
    | Undefined => Action.ret profile_not_found
    | Own c => Action.ret (json (CustomerBody c))
    | Inherited m => Action.ret (json (BuiltinBody m))
    end.

Definition get_profile_appointments (user : Identity) (req : Request.t)
  : Action.t Response.t :=
  db <- Action.read ;;
  Action.ret (json (AppointmentList (appointments db))).

Definition list_offerings (user : Identity) (req : Request.t)
  : Action.t Response.t :=
  db <- Action.read ;;
  Action.ret (json (OfferingList (offerings db))).

Definition add_car (maxYear : Z) (now : Z) (user : Identity)
    (req : Request.t) : Action.t Response.t :=
  let errors := validationResult rt (car_chains maxYear) req in
  if negb (isEmpty errors)
  then Action.ret (status_json 400 (Errors errors))
  else
    let car := newCar now (Request.body req) in
    Action.console_log (LogNewCar car) ;;
    Action.ret (status_json 201 (ObjectBody car)).

Definition add_appointment (user : Identity) (req : Request.t)
  : Action.t Response.t :=
  let errors := validationResult rt appointment_chains req in
  if negb (isEmpty errors)
  then Action.ret (status_json 400 (Errors errors))
  else
    let body := Request.body req in
    if bool_decide (body !! "offeringId" = Some (JStr "offering-1"))
       && in_busy_window (hour_of rt (body !! "scheduledTime"))
    then Action.ret slot_unavailable
    else
      Action.console_log (LogNewAppointment body) ;;
      Action.ret booked.

Definition handler (maxYear : Z) (now : Z) (ep : Endpoint)
  : Identity -> Request.t -> Action.t Response.t :=
  match ep with
  | GET_profile => get_profile
  | GET_profile_appointments => get_profile_appointments
  | GET_offerings => list_offerings
  | POST_profile_cars => add_car maxYear now
  | POST_appointments => add_appointment
  end.

Definition serve (maxYear : Z) (now : Z) (ep : Endpoint) (req : Request.t)
  : Action.t Response.t :=
  gate <- fakeAuth req ;;
  match gate with
  | Respond r => Action.ret r
  | Next user => handler maxYear now ep user req
  end.

(** Serving a sequence of requests, one after the other, each on the
    state the previous one left. *)
Fixpoint run (maxYear : Z) (evs : list Event) : Action.t (list Response.t) :=
  match evs with
  | [] => Action.ret []
  | ev :: evs' =>
      r <- serve maxYear (clock ev) (endpoint ev) (request ev) ;;
      rs <- run maxYear evs' ;;
      Action.ret (r :: rs)
  end.

End Handlers.

End Stateful.

(* ================================================================== *)
(** ** Decimal strings                                                 *)
(* ================================================================== *)

(** [String(n)] of an integer is read back by [parse_int]. *)

Lemma digit_value_pretty_N_char (d : N) :
  (d < 10)%N -> digit_value (pretty_N_char d) = Some (Z.of_N d).
Proof.
  intros Hd.
  assert (d = 0 ∨ d = 1 ∨ d = 2 ∨ d = 3 ∨ d = 4 ∨ d = 5 ∨ d = 6 ∨ d = 7
          ∨ d = 8 ∨ d = 9)%N as Hcases by lia.
  repeat (destruct Hcases as [-> | Hcases]; [reflexivity |]).
  subst d. reflexivity.
Qed.

Lemma digits_pretty_N_go (x : N) :
  exists p : Z, forall acc s,
    digits acc (pretty_N_go x s) = digits (acc * p + Z.of_N x) s.
Proof.
  induction (N.lt_wf_0 x) as [x _ IH].
  destruct (decide (x = 0%N)) as [-> | Hx].
  - exists 1. intros acc s. rewrite pretty_N_go_0. f_equal. lia.
  - destruct (IH (x `div` 10)%N) as [p Hp].
    { apply N.div_lt; lia. }
    exists (10 * p). intros acc s.
    rewrite pretty_N_go_step by lia.
    rewrite Hp. cbn [digits].
    rewrite digit_value_pretty_N_char by (apply N.mod_lt; lia).
    f_equal.
    pose proof (N.div_mod x 10 ltac:(lia)) as Hdm.
    rewrite N2Z.inj_div, N2Z.inj_mod.
    change (Z.of_N 10) with 10.
    pose proof (Z.div_mod (Z.of_N x) 10 ltac:(lia)). lia.
Qed.

Lemma pretty_N_go_digit_headed (x : N) (s : string) :
  digit_headed s -> digit_headed (pretty_N_go x s).
Proof.
  revert s. induction (N.lt_wf_0 x) as [x _ IH]. intros s Hs.
  destruct (decide (x = 0%N)) as [-> | Hx].
  - by rewrite pretty_N_go_0.
  - rewrite pretty_N_go_step by lia. apply IH.
    + apply N.div_lt; lia.
    + eexists _, _, _. split; [reflexivity |].
      apply digit_value_pretty_N_char, N.mod_lt. lia.
Qed.

Lemma pretty_positive_digit_headed (p : positive) :
  digit_headed (pretty (N.pos p)).
Proof.
  unfold pretty, pretty_N. rewrite decide_False by lia.
  rewrite pretty_N_go_step by lia.
  apply pretty_N_go_digit_headed.
  eexists _, _, _. split; [reflexivity |].
  apply digit_value_pretty_N_char, N.mod_lt. lia.
Qed.

Lemma digit_value_not_sign (c : ascii) (d : Z) :
  digit_value c = Some d -> c <> "+"%char /\ c <> "-"%char.
Proof. intros H. split; intros ->; discriminate H. Qed.

Lemma unsigned_int_pretty_positive (p : positive) :
  unsigned_int (pretty (N.pos p)) = Some (Z.pos p).
Proof.
  destruct (pretty_positive_digit_headed p) as (c & s' & d & Heq & _).
  unfold unsigned_int. rewrite Heq. rewrite <- Heq.
  unfold pretty, pretty_N. rewrite decide_False by lia.
  destruct (digits_pretty_N_go (N.pos p)) as [q Hq].
  rewrite Hq. reflexivity.
Qed.

Lemma parse_int_pretty (n : Z) : parse_int (pretty n) = Some n.
Proof.
  destruct n as [| p | p].
  - reflexivity.
  - change (pretty (Z.pos p)) with (pretty (N.pos p)).
    pose proof (unsigned_int_pretty_positive p) as Hu.
    destruct (pretty_positive_digit_headed p) as (c & s' & d & Heq & Hd).
    apply digit_value_not_sign in Hd as [Hplus Hminus].
    rewrite Heq in *. unfold parse_int.
    destruct c as [[] [] [] [] [] [] [] []]; try exact Hu; congruence.
  - change (pretty (Z.neg p)) with (String "-" (pretty (N.pos p))).
    cbn [parse_int]. by rewrite unsigned_int_pretty_positive.
Qed.

Lemma pretty_Z_nonempty (n : Z) : pretty n <> "".
Proof.
  intros H. pose proof (parse_int_pretty n) as Hp. rewrite H in Hp.
  discriminate Hp.
Qed.

(* ================================================================== *)
(** ** The access gate                                                 *)
(* ================================================================== *)

Section Gate.

Context (rt : Runtime.t).

Lemma prop_truthy {A} (obj : gmap string A) (k : string) :
  truthy (prop obj k) = true <->
  is_Some (obj !! k) \/ k ∈ object_prototype_members.
Proof.
  unfold prop, is_prototype_member.
  destruct (obj !! k) as [a |] eqn:Hk; cbn.
  - split; [intros _; left; eauto | done].
  - case_bool_decide as Hm; cbn.
    + split; [by right | done].
    + split; [done |].
      intros [[a Ha] | Hin]; [discriminate Ha | contradiction].
Qed.

(** When [fakeAuth] calls [next()], the header was given, was not empty,
    and [req.user] is what the read of [users] produced. *)
Lemma fakeAuth_Next (db : Store) (req : Request.t) (user : Identity) :
  fakeAuth db req = Next user ->
  exists e, Request.headers req !! "x-user-email" = Some e
            /\ e <> "" /\ user = prop (users db) e /\ truthy user = true.
Proof.
  unfold fakeAuth.
  destruct (Request.headers req !! "x-user-email") as [e |]; cbn;
    [| discriminate].
  case_bool_decide as He; cbn; [discriminate |].
  destruct (truthy (prop (users db) e)) eqn:Ht; cbn; [| discriminate].
  intros [= <-]. eauto.
Qed.

(** The requests [fakeAuth] turns away: no header, an empty header, or a
    header naming neither a user nor a member of [Object.prototype].  The
    answer is the 401 message whatever the handler of the route is. *)
Lemma fakeAuth_unauthorized (db : Store) (req : Request.t) :
  (match Request.headers req !! "x-user-email" with
   | None => True
   | Some e =>
       e = "" \/ (users db !! e = None /\ e ∉ object_prototype_members)
   end) ->
  forall handler, route db handler req = quiet unauthorized.
Proof.
  intros H handler. unfold route, fakeAuth.
  destruct (Request.headers req !! "x-user-email") as [e |]; cbn;
    [| reflexivity].
  case_bool_decide as He; cbn; [reflexivity |].
  destruct H as [-> | [Hnone Hmem]]; [done |].
  destruct (truthy (prop (users db) e)) eqn:Ht; cbn; [| reflexivity].
  apply prop_truthy in Ht as [[u Hu] | Hin]; [congruence | contradiction].
Qed.

Lemma route_Next (db : Store) (req : Request.t) (user : Identity) handler :
  fakeAuth db req = Next user -> route db handler req = handler user req.
Proof. intros H. unfold route. by rewrite H. Qed.

(** C1 fails on the code: the header value [constructor] names no entry
    of [users], yet [users["constructor"]] reads the member every object
    inherits, which is truthy; [fakeAuth] calls [next()] and
    GET /api/offerings answers 200 with the offerings instead of 401. *)
Theorem fakeAuth_admits_inherited_member
    (t0 t1 now : Z) (body : gmap string jsval) :
  let req := Request.mk {[ "x-user-email" := "constructor" ]} body in
  users (fixtures rt t0) !! "constructor" = None
  /\ fakeAuth (fixtures rt t0) req = Next (Inherited "constructor")
  /\ Outcome.response (serve rt (boot rt t0 t1) now GET_offerings req)
     = Response.mk 200 (OfferingList fixture_offerings).
Proof. cbv zeta. split; [| split]; reflexivity. Qed.

End Gate.

(* ================================================================== *)
(** ** The GET routes                                                  *)
(* ================================================================== *)

Section Reads.

Context (rt : Runtime.t).

Lemma serve_Next (srv : Server) (now : Z) (ep : Endpoint) (req : Request.t)
    (user : Identity) :
  fakeAuth (db srv) req = Next user ->
  serve rt srv now ep req = handler rt srv now ep user req.
Proof. apply route_Next. Qed.

(** The customer header resolves to [user_1] on the fixtures. *)
Lemma fixtures_customer (t0 : Z) (req : Request.t) :
  Request.headers req !! "x-user-email" = Some "customer@carshop.com" ->
  fakeAuth (fixtures rt t0) req = Next (Own user_1).
Proof. intros H. unfold fakeAuth. rewrite H. reflexivity. Qed.

(** Every identity [fakeAuth] lets through on the fixtures is one of the
    three users or an inherited member. *)
Lemma fixtures_identity (t0 : Z) (req : Request.t) (user : Identity) :
  fakeAuth (fixtures rt t0) req = Next user ->
  user = Own user_1 \/ user = Own user_2 \/ user = Own user_3
  \/ exists m, user = Inherited m.
Proof.
  intros H. apply fakeAuth_Next in H as (e & _ & _ & -> & Ht).
  unfold prop in *. cbn [users fixtures] in *.
  destruct (fixture_users !! e) as [u |] eqn:Hu.
  - unfold fixture_users in Hu.
    repeat (apply lookup_insert_Some in Hu as [[_ <-] | [_ Hu]]; [tauto |]).
    apply lookup_singleton_Some in Hu as [_ <-]. tauto.
  - destruct (is_prototype_member e); [eauto 6 | discriminate Ht].
Qed.

(** C5: GET /api/profile answers 403 unless the identity's role is
    CUSTOMER; for a customer it answers 404 "Customer profile not found."
    when [profileId] reads as undefined in [customers], and 200 with the
    customer record itself when [customers] holds one under that key.  On
    the program's own fixtures every admitted request gets 403 or the
    record of cust-1, and the header customer@carshop.com gets cust-1
    with its two cars. *)
Theorem get_profile_cases (srv : Server) (now : Z) (req : Request.t)
    (user : Identity) :
  fakeAuth (db srv) req = Next user ->
  let out := serve rt srv now GET_profile req in
  (role_of user <> Some "CUSTOMER" ->
     out = quiet (Response.mk 403
       (Message "Forbidden: Only customers can access this profile.")))
  /\ (role_of user = Some "CUSTOMER" ->
      forall pid, profileId_of user = Some pid ->
        (prop (customers (db srv)) pid = Undefined ->
           out = quiet (Response.mk 404
                   (Message "Customer profile not found.")))
        /\ (forall c, customers (db srv) !! pid = Some c ->
              out = quiet (Response.mk 200 (CustomerBody c))))
  /\ (forall t0 t1, srv = boot rt t0 t1 ->
        (role_of user <> Some "CUSTOMER" /\
           Response.status (Outcome.response out) = 403
         \/ role_of user = Some "CUSTOMER" /\
           out = quiet (Response.mk 200 (CustomerBody cust_1)))
        /\ (Request.headers req !! "x-user-email"
              = Some "customer@carshop.com" ->
            out = quiet (Response.mk 200 (CustomerBody cust_1))
            /\ Customer.id cust_1 = "cust-1"
            /\ Customer.cars cust_1 = [car_1; car_2]
            /\ fixture_cars !! "car-1" = Some car_1
            /\ fixture_cars !! "car-2" = Some car_2)).
Proof.
  intros Hauth out. subst out. rewrite (serve_Next _ _ _ _ _ Hauth).
  cbn [handler]. unfold get_profile.
  split; [| split].
  - intros Hrole. by rewrite bool_decide_true.
  - intros Hrole pid Hpid. rewrite bool_decide_false by (by intros []).
    rewrite Hpid. cbn [property_key]. split.
    + by intros ->.
    + intros c Hc. unfold prop. by rewrite Hc.
  - intros t0 t1 ->. cbn [db boot] in *. split.
    + destruct (fixtures_identity _ _ _ Hauth) as [-> | [-> | [-> | [m ->]]]].
      * right. split; reflexivity.
      * left. split; [discriminate | reflexivity].
      * left. split; [discriminate | reflexivity].
      * left. split; [discriminate | reflexivity].
    + intros Hhdr. rewrite (fixtures_customer _ _ Hhdr) in Hauth.
      injection Hauth as <-. repeat split; reflexivity.
Qed.

(** C7: GET /api/offerings answers every admitted caller, whatever the
    identity or its role, with status 200 and the three fixture offerings
    offering-1, offering-2, offering-3, in that order and unfiltered. *)
Theorem list_offerings_all (t0 t1 now : Z) (req : Request.t)
    (user : Identity) :
  fakeAuth (fixtures rt t0) req = Next user ->
  serve rt (boot rt t0 t1) now GET_offerings req
    = quiet (Response.mk 200 (OfferingList (offerings (fixtures rt t0))))
  /\ offerings (fixtures rt t0) = [offering_1; offering_2; offering_3]
  /\ Offering.id <$> offerings (fixtures rt t0)
     = ["offering-1"; "offering-2"; "offering-3"].
Proof.
  intros Hauth. split; [| split; reflexivity].
  by rewrite (serve_Next (boot rt t0 t1) now GET_offerings req user Hauth).
Qed.

(** C8: GET /api/profile/appointments answers every admitted caller with
    status 200 and the whole appointment collection; the answer is the
    same for any two admitted callers (no role check, no scoping). *)
Theorem appointments_unscoped (srv : Server) (now1 now2 : Z)
    (req1 req2 : Request.t) (user1 user2 : Identity) :
  fakeAuth (db srv) req1 = Next user1 ->
  fakeAuth (db srv) req2 = Next user2 ->
  serve rt srv now1 GET_profile_appointments req1
    = quiet (Response.mk 200 (AppointmentList (appointments (db srv))))
  /\ serve rt srv now1 GET_profile_appointments req1
     = serve rt srv now2 GET_profile_appointments req2.
Proof.
  intros H1 H2.
  rewrite (serve_Next _ _ _ _ _ H1), (serve_Next _ _ _ _ _ H2). done.
Qed.

End Reads.

Lemma get_profile_cases_witness :
  let req := Sample.request "customer@carshop.com" ∅ in
  fakeAuth (db Sample.server) req = Next (Own user_1)
  /\ serve Sample.runtime Sample.server 0 GET_profile req
     = quiet (Response.mk 200 (CustomerBody cust_1)).
Proof.
  cbv zeta. split; [reflexivity |].
  pose proof (get_profile_cases Sample.runtime Sample.server 0
                (Sample.request "customer@carshop.com" ∅) (Own user_1)
                eq_refl) as H.
  destruct H as (_ & H & _).
  apply (H eq_refl "cust-1" eq_refl). reflexivity.
Defined.

Lemma list_offerings_all_witness :
  let req := Sample.request "employee@carshop.com" ∅ in
  fakeAuth (fixtures Sample.runtime Sample.t_boot) req = Next (Own user_2)
  /\ serve Sample.runtime Sample.server 0 GET_offerings req
     = quiet (Response.mk 200
                (OfferingList [offering_1; offering_2; offering_3])).
Proof.
  cbv zeta. split; [reflexivity |].
  exact (proj1 (list_offerings_all Sample.runtime Sample.t_boot Sample.t_boot 0
                  (Sample.request "employee@carshop.com" ∅) (Own user_2)
                  eq_refl)).
Defined.

Lemma appointments_unscoped_witness :
  let req1 := Sample.request "customer@carshop.com" ∅ in
  let req2 := Sample.request "owner@carshop.com" ∅ in
  fakeAuth (db Sample.server) req1 = Next (Own user_1)
  /\ fakeAuth (db Sample.server) req2 = Next (Own user_3)
  /\ serve Sample.runtime Sample.server 0 GET_profile_appointments req1
     = quiet (Response.mk 200
         (AppointmentList
            [Appointment.mk "appt-1" "2026-01-18T08:00:00.000Z" "SCHEDULED"
               350 cust_1 car_1 offering_1])).
Proof.
  cbv zeta. split; [reflexivity | split; [reflexivity |]].
  exact (proj1 (appointments_unscoped Sample.runtime Sample.server 0 1
                  (Sample.request "customer@carshop.com" ∅)
                  (Sample.request "owner@carshop.com" ∅)
                  (Own user_1) (Own user_3) eq_refl eq_refl)).
Defined.

(* ================================================================== *)
(** ** Validation                                                      *)
(* ================================================================== *)

Section Validation.

Context (rt : Runtime.t).

(** The entries are those of the violated chains, each once, in the
    order of declaration: every chain is run, none stops the others. *)
Lemma validationResult_filter (chains : list Chain) (req : Request.t) :
  validationResult rt chains req
  = entry <$> List.filter (violated rt req) chains.
Proof.
  unfold validationResult.
  induction chains as [| c chains IH]; [reflexivity |].
  cbn [flat_map List.filter]. rewrite IH.
  unfold run_chain, violated.
  by destruct (accepts rt (validator c) _).
Qed.

Lemma validationResult_nil (chains : list Chain) (req : Request.t) :
  validationResult rt chains req = [] <->
  forall c, c ∈ chains -> violated rt req c = false.
Proof.
  rewrite validationResult_filter. split.
  - intros H c Hc. destruct (violated rt req c) eqn:Hv; [| done].
    apply fmap_nil_inv in H.
    assert (In c (List.filter (violated rt req) chains)) as Hin.
    { apply filter_In. split; [by apply list_elem_of_In | done]. }
    rewrite H in Hin. destruct Hin.
  - intros H. induction chains as [| c chains IH]; [reflexivity |].
    cbn [List.filter]. rewrite H by left.
    apply IH. intros c' Hc'. apply H. by right.
Qed.

(** Presence: the rule fails exactly on a field whose string form is
    empty, as for an absent field, [null] and the empty string. *)
Lemma violated_notEmpty (req : Request.t) (f msg : string) :
  violated rt req (mkChain f notEmpty msg) = true <->
  toString (Request.body req !! f) = "".
Proof.
  unfold violated. cbn. rewrite negb_involutive.
  by rewrite bool_decide_eq_true.
Qed.

Lemma present_string (req : Request.t) (f msg s : string) :
  Request.body req !! f = Some (JStr s) -> s <> "" ->
  violated rt req (mkChain f notEmpty msg) = false.
Proof.
  intros Hf Hs. apply not_true_is_false. rewrite violated_notEmpty.
  by rewrite Hf.
Qed.

(** Integer range: a number is accepted exactly when it lies between the
    bounds. *)
Lemma violated_isInt_number (req : Request.t) (f msg : string)
    (min max y : Z) :
  Request.body req !! f = Some (JNum y) ->
  violated rt req (mkChain f (isInt min max) msg) = true <->
  y < min \/ max < y.
Proof.
  intros Hf. unfold violated. cbn. rewrite Hf. cbn [toString].
  rewrite parse_int_pretty.
  destruct (Z.leb_spec min y), (Z.leb_spec y max); cbn; split;
    intros; try done; lia.
Qed.

(** C3: on both POST routes every declared rule is evaluated, and the
    error list holds one entry (field and message) per violated rule, in
    the order the rules are declared; as soon as one rule is violated the
    answer is 400 with that list and nothing of the handler body runs (no
    record is built, nothing is logged).  For the car route: an absent or
    empty make, model, color or licensePlate contributes its entry, and
    on the running program, where the route is registered at clock [t1],
    a numeric year contributes its entry exactly when it lies outside
    1980 .. [new Date(t1).getFullYear() + 1].  For the appointment route:
    an absent or empty carId or offeringId contributes its entry, and a
    scheduledTime string contributes its entry exactly when the ISO-8601
    check refuses it. *)
Theorem validation_reports_every_violation (srv : Server) (now : Z)
    (ep : Endpoint) (req : Request.t) (user : Identity) :
  fakeAuth (db srv) req = Next user ->
  ep = POST_profile_cars \/ ep = POST_appointments ->
  let failing := List.filter (violated rt req) (chains_of srv ep) in
  let errors := entry <$> failing in
  validationResult rt (chains_of srv ep) req = errors
  /\ length errors = length failing
  /\ (forall c, c ∈ chains_of srv ep -> violated rt req c = true ->
        entry c ∈ errors)
  /\ (forall e, e ∈ errors ->
        exists c, c ∈ chains_of srv ep /\ violated rt req c = true
                  /\ e = entry c)
  /\ (failing <> [] ->
        serve rt srv now ep req = quiet (Response.mk 400 (Errors errors)))
  /\ (ep = POST_profile_cars ->
        (forall f msg,
           (f, msg) ∈ [("make", "Make is required");
                       ("model", "Model is required");
                       ("color", "Color is required");
                       ("licensePlate", "License plate is required")] ->
           Request.body req !! f = None
           \/ Request.body req !! f = Some (JStr "") ->
           FieldError.mk f msg ∈ errors)
        /\ (forall y, Request.body req !! "year" = Some (JNum y) ->
              y < 1980 \/ maxYear srv < y ->
              FieldError.mk "year" "Please enter a valid year" ∈ errors))
  /\ (ep = POST_profile_cars ->
      forall t0 t1, srv = boot rt t0 t1 ->
      forall y, Request.body req !! "year" = Some (JNum y) ->
        FieldError.mk "year" "Please enter a valid year" ∈ errors
        <-> y < 1980 \/ Runtime.getFullYear rt t1 + 1 < y)
  /\ (ep = POST_appointments ->
        (forall f msg,
           (f, msg) ∈ [("carId", "Car selection is required");
                       ("offeringId", "Service selection is required")] ->
           Request.body req !! f = None
           \/ Request.body req !! f = Some (JStr "") ->
           FieldError.mk f msg ∈ errors)
        /\ (forall t, Request.body req !! "scheduledTime" = Some (JStr t) ->
              FieldError.mk "scheduledTime"
                "A valid date and time is required" ∈ errors
              <-> Runtime.isISO8601 rt t = false)).
Proof.
  intros Hauth Hep failing errors.
  assert (forall c, c ∈ chains_of srv ep -> violated rt req c = true ->
                    entry c ∈ errors) as Hall.
  { intros c Hc Hv. subst errors failing. apply list_elem_of_fmap.
    exists c. split; [done |]. apply list_elem_of_In, filter_In.
    split; [by apply list_elem_of_In | done]. }
  assert (forall e, e ∈ errors ->
            exists c, c ∈ chains_of srv ep /\ violated rt req c = true
                      /\ e = entry c) as Hconv.
  { intros e He. subst errors failing.
    apply list_elem_of_fmap in He as (c & -> & Hc).
    apply list_elem_of_In, filter_In in Hc as [Hc Hv].
    exists c. by rewrite list_elem_of_In. }
  split; [apply validationResult_filter |].
  split; [apply length_fmap |].
  split; [exact Hall |].
  split; [exact Hconv |].
  split; [| split; [| split]].
  - intros Hne. rewrite (serve_Next _ _ _ _ _ _ Hauth).
    assert (validationResult rt (chains_of srv ep) req = errors) as Hvr
      by apply validationResult_filter.
    assert (isEmpty errors = false) as Hemp.
    { subst errors. destruct failing; [done | reflexivity]. }
    destruct Hep as [-> | ->]; cbn [handler chains_of] in *.
    + unfold add_car. by rewrite Hvr, Hemp.
    + unfold add_appointment. by rewrite Hvr, Hemp.
  - intros ->. split.
    + intros f msg Hin Hval.
      assert (toString (Request.body req !! f) = "") as Hstr.
      { by destruct Hval as [-> | ->]. }
      apply (Hall (mkChain f notEmpty msg)).
      * cbn [chains_of]. unfold car_chains.
        repeat (apply elem_of_cons in Hin as [[= -> ->] | Hin];
                [apply list_elem_of_In; cbn; auto 10 |]).
        by apply elem_of_nil in Hin.
      * by apply violated_notEmpty.
    + intros y Hy Hrange.
      apply (Hall (mkChain "year" (isInt 1980 (maxYear srv))
                     "Please enter a valid year")).
      * cbn [chains_of]. unfold car_chains.
        apply list_elem_of_In; cbn; auto 10.
      * by apply (violated_isInt_number _ _ _ _ _ y).
  - intros -> t0 t1 -> y Hy. cbn [chains_of maxYear boot] in *. split.
    + intros Hin. destruct (Hconv _ Hin) as (c & Hc & Hv & Heq).
      apply list_elem_of_In in Hc. cbn in Hc.
      destruct Hc as [<- | [<- | [<- | [<- | [<- | []]]]]];
        try discriminate Heq.
      by apply (violated_isInt_number _ _ _ _ _ y) in Hv.
    + intros Hrange.
      apply (Hall (mkChain "year"
                     (isInt 1980 (Runtime.getFullYear rt t1 + 1))
                     "Please enter a valid year")).
      * unfold car_chains. apply list_elem_of_In; cbn; auto 10.
      * by apply (violated_isInt_number _ _ _ _ _ y).
  - intros ->. cbn [chains_of] in *. split.
    + intros f msg Hin Hval.
      assert (toString (Request.body req !! f) = "") as Hstr.
      { by destruct Hval as [-> | ->]. }
      apply (Hall (mkChain f notEmpty msg)).
      * unfold appointment_chains.
        repeat (apply elem_of_cons in Hin as [[= -> ->] | Hin];
                [apply list_elem_of_In; cbn; auto 10 |]).
        by apply elem_of_nil in Hin.
      * by apply violated_notEmpty.
    + intros t Ht.
      assert (violated rt req
                (mkChain "scheduledTime" isISO8601
                   "A valid date and time is required") = true
              <-> Runtime.isISO8601 rt t = false) as Hviol.
      { unfold violated. cbn [validator path accepts].
        rewrite Ht. cbn [toString]. apply negb_true_iff. }
      split.
      * intros Hin. destruct (Hconv _ Hin) as (c & Hc & Hv & Heq).
        apply list_elem_of_In in Hc. cbn in Hc.
        destruct Hc as [<- | [<- | [<- | []]]]; try discriminate Heq.
        by apply Hviol.
      * intros Hiso. apply Hviol in Hiso.
        apply (Hall _ ltac:(unfold appointment_chains;
                            apply list_elem_of_In; cbn; auto 10) Hiso).
Qed.

End Validation.

Lemma validation_reports_every_violation_witness :
  let req :=
    Sample.request "customer@carshop.com"
      (<["make" := JStr ""]> (<["year" := JNum 1979]> Sample.yaris)) in
  fakeAuth (db Sample.server) req = Next (Own user_1)
  /\ serve Sample.runtime Sample.server 0 POST_profile_cars req
     = quiet (Response.mk 400
         (Errors [FieldError.mk "make" "Make is required";
                  FieldError.mk "year" "Please enter a valid year"])).
Proof.
  cbv zeta. split; [reflexivity |].
  pose proof (validation_reports_every_violation Sample.runtime Sample.server
                0 POST_profile_cars
                (Sample.request "customer@carshop.com"
                   (<["make" := JStr ""]>
                      (<["year" := JNum 1979]> Sample.yaris)))
                (Own user_1) eq_refl (or_introl eq_refl)) as H.
  cbv zeta in H. destruct H as (_ & _ & _ & _ & H & _).
  apply H. vm_compute. discriminate.
Defined.

(* ================================================================== *)
(** ** POST /api/profile/cars                                          *)
(* ================================================================== *)

Section CarRegistration.

Context (rt : Runtime.t).

Lemma newCar_carType (now : Z) (body : gmap string jsval) :
  newCar now body !! "carType" = Some JNull.
Proof. unfold newCar. apply lookup_insert_eq. Qed.

Lemma newCar_echo (now : Z) (body : gmap string jsval) (k : string)
    (v : jsval) :
  k <> "carType" -> body !! k = Some v -> newCar now body !! k = Some v.
Proof.
  intros Hk Hv. unfold newCar. rewrite lookup_insert_ne by done.
  by apply lookup_union_Some_l.
Qed.

Lemma newCar_generated_id (now : Z) (body : gmap string jsval) :
  body !! "id" = None ->
  newCar now body !! "id" = Some (JStr ("car-" +:+ pretty now)).
Proof.
  intros Hid. unfold newCar. rewrite lookup_insert_ne by done.
  rewrite lookup_union_r by done. apply lookup_singleton_eq.
Qed.

Lemma newCar_no_other_field (now : Z) (body : gmap string jsval)
    (k : string) :
  k <> "carType" -> k <> "id" -> newCar now body !! k = body !! k.
Proof.
  intros Hk Hid. unfold newCar. rewrite lookup_insert_ne by done.
  destruct (body !! k) as [v |] eqn:Hv.
  - by apply lookup_union_Some_l.
  - rewrite lookup_union_r by done. apply lookup_singleton_ne. congruence.
Qed.

Lemma add_car_valid (srv : Server) (now : Z) (req : Request.t)
    (user : Identity) :
  fakeAuth (db srv) req = Next user ->
  validationResult rt (car_chains (maxYear srv)) req = [] ->
  serve rt srv now POST_profile_cars req
  = Outcome.mk
      (Response.mk 201 (ObjectBody (newCar now (Request.body req))))
      [LogNewCar (newCar now (Request.body req))].
Proof.
  intros Hauth Hvalid. rewrite (serve_Next _ _ _ _ _ _ Hauth).
  cbn [handler]. unfold add_car. by rewrite Hvalid.
Qed.

(** What a validated car registration is answered with: 201 and an
    object that echoes the submitted make, model, year, color and
    licensePlate and has carType null.  When the payload has no id field
    of its own, the id is "car-" followed by the clock reading in decimal;
    such ids differ only as far as the clock readings do. *)
Theorem add_car_created (srv : Server) (now : Z) (req : Request.t)
    (user : Identity) :
  fakeAuth (db srv) req = Next user ->
  validationResult rt (car_chains (maxYear srv)) req = [] ->
  let car := newCar now (Request.body req) in
  Outcome.response (serve rt srv now POST_profile_cars req)
    = Response.mk 201 (ObjectBody car)
  /\ car !! "carType" = Some JNull
  /\ (forall f, f ∈ ["make"; "model"; "year"; "color"; "licensePlate"] ->
        car !! f = Request.body req !! f)
  /\ (Request.body req !! "id" = None ->
        car !! "id" = Some (JStr ("car-" +:+ pretty now))
        /\ "car-" +:+ pretty now <> ""
        /\ forall now' (req' : Request.t),
             Request.body req' !! "id" = None -> now' <> now ->
             newCar now' (Request.body req') !! "id" <> car !! "id").
Proof.
  intros Hauth Hvalid car. subst car.
  rewrite (add_car_valid _ _ _ _ Hauth Hvalid). cbn [Outcome.response].
  split; [reflexivity |]. split; [apply newCar_carType |]. split.
  - intros f Hf. apply newCar_no_other_field.
    + intros ->. apply list_elem_of_In in Hf. cbn in Hf.
      intuition discriminate.
    + intros ->. apply list_elem_of_In in Hf. cbn in Hf.
      intuition discriminate.
  - intros Hid. split; [by apply newCar_generated_id |].
    split; [discriminate |].
    intros now' req' Hid' Hne.
    rewrite !newCar_generated_id by done.
    intros Heq. apply Hne. apply (inj pretty).
    apply (inj (String.append "car-")). congruence.
Qed.

(** C4 fails on the code, which sets out to "generate a fake unique ID"
    (line 142).  The id is the millisecond clock reading, so two
    validated calls served in the same millisecond receive the same id;
    and the body is spread after the id, so a payload that carries an id
    of its own, here the empty string, is answered with that id (the
    sibling field carType is written after the spread and cannot be
    overridden). *)
Lemma add_car_id_not_fresh :
  let ev :=
    mkEvent 1768464000123 POST_profile_cars
      (Sample.request "customer@carshop.com" Sample.yaris) in
  let ev' :=
    mkEvent 1768464000124 POST_profile_cars
      (Sample.request "customer@carshop.com"
         (<["id" := JStr ""]> Sample.yaris)) in
  exists car1 car2 car3,
    Outcome.response <$> (run Sample.runtime Sample.server [ev; ev; ev']).2
    = [ Response.mk 201 (ObjectBody car1);
        Response.mk 201 (ObjectBody car2);
        Response.mk 201 (ObjectBody car3) ]
    /\ car1 !! "id" = Some (JStr "car-1768464000123")
    /\ car2 !! "id" = car1 !! "id"
    /\ car3 !! "id" = Some (JStr "").
Proof.
  cbv zeta. eexists _, _, _. split; [vm_compute; reflexivity |].
  split; [| split]; vm_compute; reflexivity.
Qed.

(** C9: in the 201 answer the body is spread between the generated id
    and carType: every field of the payload other than carType comes back
    with the value submitted, carType is null whatever the payload says,
    an id in the payload replaces the generated one, and the object has
    no field besides these. *)
Theorem newCar_spread (srv : Server) (now : Z) (req : Request.t)
    (user : Identity) :
  fakeAuth (db srv) req = Next user ->
  validationResult rt (car_chains (maxYear srv)) req = [] ->
  exists car,
    Outcome.response (serve rt srv now POST_profile_cars req)
      = Response.mk 201 (ObjectBody car)
    /\ (forall k v, k <> "carType" -> Request.body req !! k = Some v ->
          car !! k = Some v)
    /\ car !! "carType" = Some JNull
    /\ (forall v, Request.body req !! "id" = Some v -> car !! "id" = Some v)
    /\ (Request.body req !! "id" = None ->
          car !! "id" = Some (JStr ("car-" +:+ pretty now)))
    /\ (forall k, k <> "carType" -> k <> "id" ->
          car !! k = Request.body req !! k).
Proof.
  intros Hauth Hvalid. exists (newCar now (Request.body req)).
  rewrite (add_car_valid _ _ _ _ Hauth Hvalid). cbn [Outcome.response].
  split; [reflexivity |].
  split; [intros k v; apply newCar_echo |].
  split; [apply newCar_carType |].
  split; [intros v; by apply newCar_echo |].
  split; [apply newCar_generated_id |].
  intros k. apply newCar_no_other_field.
Qed.

End CarRegistration.

Lemma add_car_created_witness :
  let req := Sample.request "customer@carshop.com" Sample.yaris in
  fakeAuth (db Sample.server) req = Next (Own user_1)
  /\ validationResult Sample.runtime (car_chains (maxYear Sample.server)) req
     = []
  /\ Outcome.response
       (serve Sample.runtime Sample.server 1768464000123 POST_profile_cars req)
     = Response.mk 201 (ObjectBody (newCar 1768464000123 Sample.yaris)).
Proof.
  cbv zeta. split; [reflexivity | split; [reflexivity |]].
  exact (proj1 (add_car_created Sample.runtime Sample.server 1768464000123
                  (Sample.request "customer@carshop.com" Sample.yaris)
                  (Own user_1) eq_refl eq_refl)).
Defined.

Lemma newCar_spread_witness :
  let body :=
    <["id" := JStr "mine"]> (<["carType" := JStr "SUV"]> Sample.yaris) in
  let req := Sample.request "owner@carshop.com" body in
  fakeAuth (db Sample.server) req = Next (Own user_3)
  /\ validationResult Sample.runtime (car_chains (maxYear Sample.server)) req
     = []
  /\ exists car,
       Outcome.response
         (serve Sample.runtime Sample.server 1768464000123
            POST_profile_cars req)
       = Response.mk 201 (ObjectBody car)
       /\ car !! "id" = Some (JStr "mine")
       /\ car !! "carType" = Some JNull.
Proof.
  intros body req.
  assert (fakeAuth (db Sample.server) req = Next (Own user_3)) as Hauth
    by reflexivity.
  assert (validationResult Sample.runtime
            (car_chains (maxYear Sample.server)) req = []) as Hvalid
    by reflexivity.
  split; [exact Hauth | split; [exact Hvalid |]].
  destruct (newCar_spread Sample.runtime Sample.server 1768464000123 req
              (Own user_3) Hauth Hvalid)
    as (car & Hresp & _ & Htype & Hid & _).
  exists car. split; [exact Hresp |]. split; [| exact Htype].
  apply Hid. reflexivity.
Defined.

(* ================================================================== *)
(** ** POST /api/appointments                                          *)
(* ================================================================== *)

Section Booking.

Context (rt : Runtime.t).

Lemma fakeAuth_Respond (db : Store) (req : Request.t) (r : Response.t) :
  fakeAuth db req = Respond r -> r = unauthorized.
Proof.
  unfold fakeAuth.
  destruct (header_falsy _ || negb _); [by intros [= <-] | discriminate].
Qed.

Lemma add_appointment_valid (req : Request.t) (user : Identity) :
  validationResult rt appointment_chains req = [] ->
  add_appointment rt user req
  = if bool_decide (Request.body req !! "offeringId"
                    = Some (JStr "offering-1"))
       && in_busy_window (hour_of rt (Request.body req !! "scheduledTime"))
    then quiet slot_unavailable
    else Outcome.mk booked [LogNewAppointment (Request.body req)].
Proof. intros H. unfold add_appointment. by rewrite H. Qed.

Lemma in_busy_window_true (hour : option Z) :
  in_busy_window hour = true <-> exists h, hour = Some h /\ 10 <= h <= 12.
Proof.
  destruct hour as [h |]; cbn.
  - rewrite andb_true_iff, !Z.leb_le. split.
    + intros []. exists h. split; [done | lia].
    + intros (h' & [= <-] & ?). lia.
  - split; [discriminate | by intros (h & [=] & _)].
Qed.

(** The three statuses POST /api/appointments can answer with. *)
Lemma add_appointment_status (srv : Server) (now : Z) (req : Request.t) :
  Response.status (Outcome.response (serve rt srv now POST_appointments req))
    ∈ [401; 400; 201].
Proof.
  unfold serve, route.
  destruct (fakeAuth (db srv) req) as [r | user] eqn:Hauth.
  - apply fakeAuth_Respond in Hauth as ->. cbn. set_solver.
  - cbn [handler]. unfold add_appointment.
    destruct (isEmpty _); cbn [negb]; [| cbn; set_solver].
    destruct (_ && _); cbn; set_solver.
Qed.

(** C2: a validated booking is refused with status 400 and the
    slot-conflict message when offeringId is "offering-1" and the local
    hour of scheduledTime lies in 10..12; every other validated booking
    (so offering-2 at hour 11) is answered 201 with the message
    "Appointment booked successfully!". *)
Theorem add_appointment_validated (srv : Server) (now : Z)
    (req : Request.t) (user : Identity) :
  fakeAuth (db srv) req = Next user ->
  validationResult rt appointment_chains req = [] ->
  let body := Request.body req in
  let hour := hour_of rt (body !! "scheduledTime") in
  let out := serve rt srv now POST_appointments req in
  (body !! "offeringId" = Some (JStr "offering-1") ->
   forall h, hour = Some h -> 10 <= h <= 12 ->
     out = quiet (Response.mk 400
       (Message
          "The selected time slot is unavailable. Please choose another time.")))
  /\ (body !! "offeringId" <> Some (JStr "offering-1")
      \/ (forall h, hour = Some h -> h < 10 \/ 12 < h) ->
      out = Outcome.mk
              (Response.mk 201 (Message "Appointment booked successfully!"))
              [LogNewAppointment body])
  /\ (body !! "offeringId" = Some (JStr "offering-2") -> hour = Some 11 ->
      Outcome.response out
      = Response.mk 201 (Message "Appointment booked successfully!")).
Proof.
  intros Hauth Hvalid body hour out. subst out.
  rewrite (serve_Next _ _ _ _ _ _ Hauth). cbn [handler].
  rewrite (add_appointment_valid _ _ Hvalid). fold body. fold hour.
  split; [| split].
  - intros Hoff h Hh Hrange. rewrite bool_decide_true by done.
    cbn [andb].
    assert (in_busy_window hour = true) as ->; [| reflexivity].
    apply in_busy_window_true. eauto.
  - intros Hother.
    assert (bool_decide (body !! "offeringId" = Some (JStr "offering-1"))
            && in_busy_window hour = false) as ->; [| reflexivity].
    apply andb_false_iff. destruct Hother as [Hoff | Hhour].
    + left. by apply bool_decide_eq_false.
    + right. apply not_true_is_false. rewrite in_busy_window_true.
      intros (h & Hh & Hrange). destruct (Hhour h Hh); lia.
  - intros Hoff Hh. rewrite bool_decide_false; [reflexivity |].
    rewrite Hoff. discriminate.
Qed.

(** C10: POST /api/appointments answers 401, 400 or 201, never 404; the
    answer to an admitted request does not depend on what the store
    holds; and a request with non-empty carId and offeringId strings
    (whether or not they name a fixture) and a scheduledTime the ISO-8601
    check accepts is answered 201 unless offeringId is "offering-1" and
    the local hour lies in 10..12, in which case it is answered 400 with
    the slot-conflict message. *)
Theorem add_appointment_ignores_store (srv : Server) (now : Z)
    (req : Request.t) (user : Identity) (carId offeringId time : string) :
  fakeAuth (db srv) req = Next user ->
  Request.body req !! "carId" = Some (JStr carId) -> carId <> "" ->
  Request.body req !! "offeringId" = Some (JStr offeringId) ->
  offeringId <> "" ->
  Request.body req !! "scheduledTime" = Some (JStr time) ->
  Runtime.isISO8601 rt time = true ->
  let out := serve rt srv now POST_appointments req in
  let busy :=
    offeringId = "offering-1"
    /\ exists h, Runtime.getHours rt (JStr time) = Some h /\ 10 <= h <= 12 in
  (forall srv0 now0 req0,
     Response.status
       (Outcome.response (serve rt srv0 now0 POST_appointments req0)) <> 404)
  /\ (forall srv' now' user',
        fakeAuth (db srv') req = Next user' ->
        serve rt srv' now' POST_appointments req = out)
  /\ (busy ->
      Outcome.response out
      = Response.mk 400
          (Message
             "The selected time slot is unavailable. Please choose another time."))
  /\ (~ busy ->
      Outcome.response out
      = Response.mk 201 (Message "Appointment booked successfully!")).
Proof.
  intros Hauth Hcar Hcar_ne Hoff Hoff_ne Htime Hiso out busy.
  assert (validationResult rt appointment_chains req = []) as Hvalid.
  { apply validationResult_nil. intros c Hc.
    apply list_elem_of_In in Hc. cbn in Hc.
    destruct Hc as [<- | [<- | [<- | []]]].
    - by apply (present_string rt req _ _ carId).
    - by apply (present_string rt req _ _ offeringId).
    - unfold violated. cbn [validator path accepts].
      rewrite Htime. cbn [toString]. by rewrite Hiso. }
  split; [| split].
  - intros srv0 now0 req0 H404.
    pose proof (add_appointment_status srv0 now0 req0) as Hst.
    rewrite H404 in Hst. apply list_elem_of_In in Hst. cbn in Hst.
    intuition discriminate.
  - intros srv' now' user' Hauth'. subst out.
    by rewrite (serve_Next _ _ _ _ _ _ Hauth),
               (serve_Next _ _ _ _ _ _ Hauth').
  - subst out. rewrite (serve_Next _ _ _ _ _ _ Hauth). cbn [handler].
    rewrite (add_appointment_valid _ _ Hvalid).
    unfold hour_of. rewrite Htime, Hoff. cbn [mbind option_bind].
    split.
    + intros [-> Hhour]. rewrite bool_decide_true by done.
      apply in_busy_window_true in Hhour. by rewrite Hhour.
    + intros Hnot.
      destruct (decide (offeringId = "offering-1")) as [-> | Hne].
      * rewrite bool_decide_true by done. cbn [andb].
        destruct (in_busy_window _) eqn:Hbusy; [| reflexivity].
        apply in_busy_window_true in Hbusy. by destruct Hnot.
      * rewrite bool_decide_false by congruence. reflexivity.
Qed.

End Booking.

Lemma add_appointment_validated_witness :
  let req :=
    Sample.request "customer@carshop.com"
      (Sample.booking "offering-1" "2026-02-01T11:30") in
  fakeAuth (db Sample.server) req = Next (Own user_1)
  /\ validationResult Sample.runtime appointment_chains req = []
  /\ serve Sample.runtime Sample.server 0 POST_appointments req
     = quiet (Response.mk 400
         (Message
            "The selected time slot is unavailable. Please choose another time.")).
Proof.
  intros req.
  assert (fakeAuth (db Sample.server) req = Next (Own user_1)) as Hauth
    by reflexivity.
  assert (validationResult Sample.runtime appointment_chains req = [])
    as Hvalid by reflexivity.
  split; [exact Hauth | split; [exact Hvalid |]].
  destruct (add_appointment_validated Sample.runtime Sample.server 0 req
              (Own user_1) Hauth Hvalid) as (Hbusy & _).
  apply (Hbusy eq_refl 11 eq_refl). lia.
Defined.

Lemma add_appointment_ignores_store_witness :
  let req :=
    Sample.request "employee@carshop.com"
      (<["carId" := JStr "no-such-car"]>
         (Sample.booking "no-such-offering" "2026-02-01T11:30")) in
  cars (db Sample.server) !! "no-such-car" = None
  /\ fakeAuth (db Sample.server) req = Next (Own user_2)
  /\ Outcome.response
       (serve Sample.runtime Sample.server 0 POST_appointments req)
     = Response.mk 201 (Message "Appointment booked successfully!").
Proof.
  intros req.
  assert (fakeAuth (db Sample.server) req = Next (Own user_2)) as Hauth
    by reflexivity.
  split; [reflexivity | split; [exact Hauth |]].
  destruct (add_appointment_ignores_store Sample.runtime Sample.server 0 req
              (Own user_2) "no-such-car" "no-such-offering"
              "2026-02-01T11:30" Hauth eq_refl ltac:(discriminate) eq_refl
              ltac:(discriminate) eq_refl eq_refl)
    as (_ & _ & _ & Hfree).
  apply Hfree. intros [Hoff _]. discriminate Hoff.
Defined.

(* ================================================================== *)
(** ** The process: what requests leave behind                         *)
(* ================================================================== *)

Section Process.

Context (rt : Runtime.t).

Lemma run_unfold (srv : Server) (evs : list Event) :
  run rt srv evs = (srv, (fun ev => (step rt srv ev).2) <$> evs).
Proof.
  induction evs as [| ev evs IH]; [reflexivity |].
  cbn [run step]. rewrite IH. reflexivity.
Qed.

(** The GET handlers do not read the clock. *)
Lemma get_ignores_clock (srv : Server) (now1 now2 : Z) (ep : Endpoint)
    (req : Request.t) :
  is_get ep = true -> serve rt srv now1 ep req = serve rt srv now2 ep req.
Proof. by destruct ep. Qed.

(** A write to the collections is seen by the next read: the state the
    actions run on is a state that can change. *)
Lemma write_is_observable (bound now : Z) (req : Request.t)
    (user : Identity) (p : Process) (extra : Offering.t) :
  fakeAuth (store p) req = Next user ->
  (Action.write
     (fun db => mkStore (users db) (cars db) (customers db)
                  (offerings db ++ [extra]) (appointments db)) ;;
   Stateful.serve rt bound now GET_offerings req) p
  = (Response.mk 200 (OfferingList (offerings (store p) ++ [extra])),
     mkProcess
       (mkStore (users (store p)) (cars (store p)) (customers (store p))
          (offerings (store p) ++ [extra]) (appointments (store p)))
       (stdout p)).
Proof.
  intros Hauth. unfold Action.bind, Action.write, Stateful.serve,
    Stateful.fakeAuth, Action.bind, Action.read. cbn [store users].
  unfold fakeAuth in Hauth.
  destruct (header_falsy _ || negb _); [discriminate Hauth |].
  reflexivity.
Qed.

(** Running a route as an action gives the response and the console
    lines of [serve], and hands the collections on as it found them. *)
Lemma stateful_serve (bound now : Z) (ep : Endpoint) (req : Request.t)
    (p : Process) :
  Stateful.serve rt bound now ep req p
  = let out := serve rt (mkServer (store p) bound) now ep req in
    (Outcome.response out,
     mkProcess (store p) (stdout p ++ Outcome.console out)).
Proof.
  assert (forall r : Response.t,
            (r, p) = (r, mkProcess (store p) (stdout p ++ []))) as Hsame.
  { intros r. rewrite app_nil_r. by destruct p. }
  cbv zeta. unfold Stateful.serve, serve, route, Stateful.fakeAuth, fakeAuth,
    Action.bind, Action.read, Action.ret. cbn [db].
  destruct (header_falsy _ || negb _); [apply Hsame |].
  destruct ep; cbn [Stateful.handler handler maxYear db].
  - unfold Stateful.get_profile, get_profile, Action.bind, Action.read,
      Action.ret.
    case_bool_decide; [apply Hsame |].
    destruct (prop (customers (store p)) _); apply Hsame.
  - apply Hsame.
  - apply Hsame.
  - unfold Stateful.add_car, add_car, Action.bind, Action.console_log,
      Action.ret.
    destruct (isEmpty _); cbn [negb]; [reflexivity | apply Hsame].
  - unfold Stateful.add_appointment, add_appointment, Action.bind,
      Action.console_log, Action.ret.
    destruct (isEmpty _); cbn [negb]; [| apply Hsame].
    destruct (_ && _); [apply Hsame | reflexivity].
Qed.

Lemma stateful_run (bound : Z) (evs : list Event) (p : Process) :
  Stateful.run rt bound evs p
  = let outs :=
      (fun ev => serve rt (mkServer (store p) bound)
                   (clock ev) (endpoint ev) (request ev)) <$> evs in
    (Outcome.response <$> outs,
     mkProcess (store p) (stdout p ++ console_of outs)).
Proof.
  cbv zeta. revert p. induction evs as [| ev evs IH]; intros p.
  - cbn. rewrite app_nil_r. by destruct p.
  - cbn [Stateful.run]. unfold Action.bind at 1. rewrite stateful_serve.
    cbv zeta. unfold Action.bind at 1. rewrite IH. cbn [store stdout].
    unfold Action.ret, console_of. cbn [fmap list_fmap flat_map].
    by rewrite <- app_assoc.
Qed.

(** C6: no handler writes to the collections.  Whatever state the
    process is in, serving any request, and so any sequence of requests,
    hands the five collections on unchanged.  The POST routes acknowledge
    without inserting: a validated car is answered 201 with the new
    record and a free slot is answered 201 with the booking message, each
    logged once, and the collections afterwards are those before.  Hence
    of two identical GET requests served by one process, whatever is
    served before and between them and at whichever times, the second
    gets the response of the first. *)
Theorem handlers_never_write (bound : Z) (p : Process)
    (pre mid : list Event) (ep : Endpoint) (req : Request.t)
    (now1 now2 : Z) :
  is_get ep = true ->
  let first := mkEvent now1 ep req in
  let second := mkEvent now2 ep req in
  let trace := (pre ++ first :: mid ++ [second])%list in
  let result := Stateful.run rt bound trace p in
  store result.2 = store p
  /\ (exists r,
        result.1 !! length pre = Some r
        /\ result.1 !! S (length pre + length mid) = Some r)
  /\ (forall q now ep' req',
        store (Stateful.serve rt bound now ep' req' q).2 = store q)
  /\ (forall q now req' user,
        fakeAuth (store q) req' = Next user ->
        validationResult rt (car_chains bound) req' = [] ->
        Stateful.serve rt bound now POST_profile_cars req' q
        = (Response.mk 201 (ObjectBody (newCar now (Request.body req'))),
           mkProcess (store q)
             (stdout q ++ [LogNewCar (newCar now (Request.body req'))])))
  /\ (forall q now req' user,
        fakeAuth (store q) req' = Next user ->
        validationResult rt appointment_chains req' = [] ->
        Request.body req' !! "offeringId" <> Some (JStr "offering-1")
        \/ (forall h,
              hour_of rt (Request.body req' !! "scheduledTime") = Some h ->
              h < 10 \/ 12 < h) ->
        Stateful.serve rt bound now POST_appointments req' q
        = (Response.mk 201 (Message "Appointment booked successfully!"),
           mkProcess (store q)
             (stdout q ++ [LogNewAppointment (Request.body req')]))).
Proof.
  intros Hget first second trace result. subst result.
  rewrite stateful_run. cbv zeta. cbn [fst snd store].
  split; [reflexivity |]. split; [| split; [| split]].
  - exists (Outcome.response
              (serve rt (mkServer (store p) bound) now1 ep req)).
    rewrite !list_lookup_fmap. subst trace. split.
    + rewrite lookup_app_r by lia. by rewrite Nat.sub_diag.
    + rewrite lookup_app_r by lia.
      replace (S (length pre + length mid) - length pre)%nat
        with (S (length mid)) by lia.
      change (first :: mid ++ [second])%list
        with ([first] ++ (mid ++ [second]))%list.
      rewrite lookup_app_r by (cbn [length]; lia). cbn [length].
      replace (S (length mid) - 1)%nat with (length mid) by lia.
      rewrite lookup_app_r by lia. rewrite Nat.sub_diag. cbn.
      do 2 f_equal. by apply get_ignores_clock.
  - intros q now ep' req'. by rewrite stateful_serve.
  - intros q now req' user Hauth Hvalid. rewrite stateful_serve. cbv zeta.
    by rewrite (add_car_valid rt (mkServer (store q) bound) now req' user
                  Hauth Hvalid).
  - intros q now req' user Hauth Hvalid Hfree.
    rewrite stateful_serve. cbv zeta.
    rewrite (serve_Next rt (mkServer (store q) bound) now
               POST_appointments req' user Hauth).
    cbn [handler]. rewrite (add_appointment_valid rt _ _ Hvalid).
    assert (bool_decide (Request.body req' !! "offeringId"
                         = Some (JStr "offering-1"))
            && in_busy_window
                 (hour_of rt (Request.body req' !! "scheduledTime"))
            = false) as ->; [| reflexivity].
    apply andb_false_iff. destruct Hfree as [Hoff | Hhour].
    + left. by apply bool_decide_eq_false.
    + right. apply not_true_is_false. rewrite in_busy_window_true.
      intros (h & Hh & Hrange). destruct (Hhour h Hh); lia.
Qed.

End Process.

Lemma handlers_never_write_witness :
  let get := Sample.request "customer@carshop.com" ∅ in
  let post :=
    mkEvent 1768464000123 POST_profile_cars
      (Sample.request "customer@carshop.com" Sample.yaris) in
  let trace :=
    [post; mkEvent 1768464000200 GET_profile get; post;
     mkEvent 1768464000300 GET_profile get] in
  let result :=
    Stateful.run Sample.runtime (maxYear Sample.server) trace
      (loaded Sample.runtime Sample.t_boot) in
  is_get GET_profile = true
  /\ store result.2 = fixtures Sample.runtime Sample.t_boot
  /\ exists r, result.1 !! 1%nat = Some r /\ result.1 !! 3%nat = Some r.
Proof.
  intros get post trace result. split; [reflexivity |].
  destruct (handlers_never_write Sample.runtime (maxYear Sample.server)
              (loaded Sample.runtime Sample.t_boot) [post] [post]
              GET_profile get 1768464000200 1768464000300 eq_refl)
    as (Hstore & Hsame & _).
  split; [exact Hstore | exact Hsame].
Defined.

(* ================================================================== *)
(** ** Further properties of the access gate                           *)
(* ================================================================== *)

Section GateMore.

Context (rt : Runtime.t).

Lemma turned_away_dec (db : Store) (req : Request.t) :
  turned_away db req \/ exists user, fakeAuth db req = Next user.
Proof.
  unfold turned_away, fakeAuth.
  destruct (Request.headers req !! "x-user-email") as [e |]; [| by left].
  cbn. case_bool_decide as He; [by left; left |]. cbn.
  destruct (truthy (prop (users db) e)) eqn:Ht; cbn; [eauto |].
  left. right. apply not_true_iff_false in Ht. rewrite prop_truthy in Ht.
  split.
  - destruct (users db !! e) eqn:Hu; [| done]. destruct Ht. left. eauto.
  - intros Hin. destruct Ht. by right.
Qed.

Lemma turned_away_not_Next (db : Store) (req : Request.t) (user : Identity) :
  turned_away db req -> fakeAuth db req <> Next user.
Proof.
  intros Hta Hnext. apply fakeAuth_Next in Hnext as (e & He & Hne & -> & Ht).
  unfold turned_away in Hta. rewrite He in Hta.
  destruct Hta as [-> | [Hnone Hmem]]; [done |].
  apply prop_truthy in Ht as [[u Hu] | Hin]; [congruence | contradiction].
Qed.

(** The statuses a handler answers with, route by route. *)
Lemma handler_status (srv : Server) (now : Z) (ep : Endpoint)
    (user : Identity) (req : Request.t) :
  Response.status (Outcome.response (handler rt srv now ep user req))
    ∈ handler_statuses ep.
Proof.
  destruct ep; cbn [handler handler_statuses].
  - unfold get_profile. case_bool_decide; [cbn; set_solver |].
    destruct (prop _ _); cbn; set_solver.
  - cbn. set_solver.
  - cbn. set_solver.
  - unfold add_car. destruct (isEmpty _); cbn; set_solver.
  - unfold add_appointment. destruct (isEmpty _); cbn [negb];
      [| cbn; set_solver].
    destruct (_ && _); cbn; set_solver.
Qed.

(** X1: on every route, a request is answered 401 exactly when its
    x-user-email header is missing, empty, or names neither a user nor a
    member inherited from Object.prototype; the answer is then the
    Unauthorized message and nothing is logged. *)
Theorem unauthorized_iff_turned_away (srv : Server) (now : Z)
    (ep : Endpoint) (req : Request.t) :
  (Response.status (Outcome.response (serve rt srv now ep req)) = 401
   <-> turned_away (db srv) req)
  /\ (turned_away (db srv) req <->
      serve rt srv now ep req
      = quiet (Response.mk 401
          (Message
             "Unauthorized: Please provide a valid 'x-user-email' header."))).
Proof.
  assert (turned_away (db srv) req ->
          serve rt srv now ep req = quiet unauthorized) as Hrej.
  { intros Hta. by apply fakeAuth_unauthorized. }
  assert (Response.status (Outcome.response (serve rt srv now ep req)) = 401
          -> turned_away (db srv) req) as Hconv.
  { intros Hst.
    destruct (turned_away_dec (db srv) req) as [Hta | [user Hnext]];
      [done |].
    rewrite (serve_Next _ _ _ _ _ _ Hnext) in Hst.
    pose proof (handler_status srv now ep user req) as Hin.
    rewrite Hst in Hin. apply list_elem_of_In in Hin.
    destruct ep; cbn in Hin; intuition discriminate. }
  split; split.
  - exact Hconv.
  - intros Hta. by rewrite (Hrej Hta).
  - exact Hrej.
  - intros Heq. apply Hconv. by rewrite Heq.
Qed.

(** X2: on the program's fixtures [fakeAuth] lets a request through
    exactly when its header is one of the three user emails, with that
    user as identity, or the name of a member of Object.prototype, with
    the inherited member as identity. *)
Theorem fixtures_admitted (t0 : Z) (req : Request.t) (user : Identity) :
  fakeAuth (fixtures rt t0) req = Next user <->
  exists e, Request.headers req !! "x-user-email" = Some e
    /\ (e = "customer@carshop.com" /\ user = Own user_1
        \/ e = "employee@carshop.com" /\ user = Own user_2
        \/ e = "owner@carshop.com" /\ user = Own user_3
        \/ e ∈ object_prototype_members /\ user = Inherited e).
Proof.
  split.
  - intros H. apply fakeAuth_Next in H as (e & Hhdr & _ & -> & Ht).
    exists e. split; [done |].
    unfold prop in *. cbn [users fixtures] in *.
    destruct (fixture_users !! e) as [u |] eqn:Hu.
    + unfold fixture_users in Hu.
      repeat (apply lookup_insert_Some in Hu as [[<- <-] | [_ Hu]];
              [tauto |]).
      apply lookup_singleton_Some in Hu as [<- <-]. tauto.
    + unfold is_prototype_member in *.
      case_bool_decide; [tauto | discriminate Ht].
  - intros (e & Hhdr & Hcase). unfold fakeAuth. rewrite Hhdr.
    destruct Hcase as [[-> ->] | [[-> ->] | [[-> ->] | [Hin ->]]]];
      try reflexivity.
    apply list_elem_of_In in Hin. cbn in Hin.
    repeat (destruct Hin as [<- | Hin]; [reflexivity |]).
    destruct Hin.
Qed.

(** X3: GET /api/profile answers 200 with a customer record only to a
    caller whose header names a user of role CUSTOMER, and the record is
    the one [customers] holds under that user's profileId. *)
Theorem profile_only_for_its_customer (srv : Server) (now : Z)
    (req : Request.t) (c : Customer.t) :
  Outcome.response (serve rt srv now GET_profile req)
    = Response.mk 200 (CustomerBody c) ->
  exists e u,
    Request.headers req !! "x-user-email" = Some e
    /\ users (db srv) !! e = Some u
    /\ User.role u = "CUSTOMER"
    /\ customers (db srv) !! User.profileId u = Some c.
Proof.
  unfold serve, route.
  destruct (fakeAuth (db srv) req) as [r | user] eqn:Hauth.
  - apply fakeAuth_Respond in Hauth as ->. discriminate.
  - apply fakeAuth_Next in Hauth as (e & Hhdr & _ & Huser & _).
    cbn [handler]. unfold get_profile.
    case_bool_decide as Hrole; [discriminate |].
    destruct user as [u | m |]; [| discriminate Hrole..].
    cbn in Hrole. injection Hrole as Hrole.
    cbn [profileId_of property_key].
    unfold prop at 1.
    destruct (customers (db srv) !! User.profileId u) as [c' |] eqn:Hc.
    + intros [= <-]. exists e, u. repeat split; try done.
      unfold prop in Huser. destruct (users (db srv) !! e); [| ].
      * by injection Huser as <-.
      * destruct (is_prototype_member e); discriminate Huser.
    + destruct (is_prototype_member _); discriminate.
Qed.

(** X4: a route answers 401 or one of the statuses written in its
    handler: 403, 404, 200 for the profile, 200 for the two lists, 400
    and 201 for the two POST routes. *)
Theorem statuses_by_route (srv : Server) (now : Z) (ep : Endpoint)
    (req : Request.t) :
  Response.status (Outcome.response (serve rt srv now ep req))
    ∈ 401 :: handler_statuses ep.
Proof.
  unfold serve, route.
  destruct (fakeAuth (db srv) req) as [r | user] eqn:Hauth.
  - apply fakeAuth_Respond in Hauth as ->. left.
  - right. apply handler_status.
Qed.

(** X5: served from the program's own fixtures, no route ever answers
    404: the one customer user resolves to a customer record. *)
Theorem fixtures_never_404 (t0 t1 now : Z) (ep : Endpoint)
    (req : Request.t) :
  Response.status (Outcome.response (serve rt (boot rt t0 t1) now ep req))
    <> 404.
Proof.
  unfold serve, route. cbn [db boot].
  destruct (fakeAuth (fixtures rt t0) req) as [r | user] eqn:Hauth.
  - apply fakeAuth_Respond in Hauth as ->. discriminate.
  - intros H404.
    pose proof (handler_status (boot rt t0 t1) now ep user req) as Hin.
    cbn [db boot] in Hin. rewrite H404 in Hin.
    apply list_elem_of_In in Hin.
    destruct ep; cbn in Hin; try (intuition discriminate).
    destruct (fixtures_identity rt _ _ _ Hauth)
      as [-> | [-> | [-> | [m ->]]]]; discriminate H404.
Qed.

End GateMore.

Lemma profile_only_for_its_customer_witness :
  let req := Sample.request "customer@carshop.com" ∅ in
  Outcome.response (serve Sample.runtime Sample.server 0 GET_profile req)
    = Response.mk 200 (CustomerBody cust_1)
  /\ exists e u,
       Request.headers req !! "x-user-email" = Some e
       /\ users (db Sample.server) !! e = Some u
       /\ User.role u = "CUSTOMER"
       /\ customers (db Sample.server) !! User.profileId u = Some cust_1.
Proof.
  intros req.
  assert (Outcome.response
            (serve Sample.runtime Sample.server 0 GET_profile req)
          = Response.mk 200 (CustomerBody cust_1)) as H by reflexivity.
  split; [exact H |].
  exact (profile_only_for_its_customer Sample.runtime Sample.server 0 req
           cust_1 H).
Defined.

(* ================================================================== *)
(** ** Further properties of the POST routes                           *)
(* ================================================================== *)

Section WritesMore.

Context (rt : Runtime.t).

(** The validation of a request looks at its body only. *)
Lemma validationResult_body (chains : list Chain) (req1 req2 : Request.t) :
  Request.body req1 = Request.body req2 ->
  validationResult rt chains req1 = validationResult rt chains req2.
Proof.
  intros Hbody. unfold validationResult.
  apply flat_map_ext. intros c. unfold run_chain. by rewrite Hbody.
Qed.

(** One console line for a 201, none otherwise. *)
Lemma console_length (srv : Server) (now : Z) (ep : Endpoint)
    (req : Request.t) :
  length (Outcome.console (serve rt srv now ep req))
  = if Response.status (Outcome.response (serve rt srv now ep req)) =? 201
    then 1%nat else 0%nat.
Proof.
  unfold serve, route.
  destruct (fakeAuth (db srv) req) as [r | user] eqn:Hauth.
  { by apply fakeAuth_Respond in Hauth as ->. }
  destruct ep; cbn [handler].
  - unfold get_profile. case_bool_decide; [reflexivity |].
    by destruct (prop _ _).
  - reflexivity.
  - reflexivity.
  - unfold add_car. by destruct (isEmpty _).
  - unfold add_appointment. destruct (isEmpty _); [| reflexivity].
    by destruct (_ && _).
Qed.

(** X6: a request writes to the console exactly when it is answered 201:
    the car route then logs the very object it returns, the appointment
    route logs the request body; every other answer logs nothing. *)
Theorem logs_exactly_what_it_creates (srv : Server) (now : Z)
    (ep : Endpoint) (req : Request.t) :
  let out := serve rt srv now ep req in
  (Response.status (Outcome.response out) <> 201 -> Outcome.console out = [])
  /\ (Response.status (Outcome.response out) = 201 ->
      ep = POST_profile_cars
      /\ Response.payload (Outcome.response out)
         = ObjectBody (newCar now (Request.body req))
      /\ Outcome.console out = [LogNewCar (newCar now (Request.body req))]
      \/ ep = POST_appointments
         /\ Outcome.console out = [LogNewAppointment (Request.body req)]).
Proof.
  cbv zeta. unfold serve, route.
  destruct (fakeAuth (db srv) req) as [r | user] eqn:Hauth.
  { apply fakeAuth_Respond in Hauth as ->. split; [done | discriminate]. }
  destruct ep; cbn [handler].
  - unfold get_profile. case_bool_decide; [split; [done | discriminate] |].
    destruct (prop _ _); split; done || discriminate.
  - split; [done | discriminate].
  - split; [done | discriminate].
  - unfold add_car. destruct (isEmpty _); cbn [negb].
    + split; [done |]. intros _. left. done.
    + split; [done | discriminate].
  - unfold add_appointment. destruct (isEmpty _); cbn [negb].
    + destruct (_ && _).
      * split; [done | discriminate].
      * split; [done |]. intros _. right. done.
    + split; [done | discriminate].
Qed.

(** X7: over any sequence of requests served by one process, the console
    holds as many lines as there were 201 answers. *)
Theorem console_counts_creations (srv : Server) (evs : list Event) :
  length (console_of (run rt srv evs).2) = created (run rt srv evs).2.
Proof.
  rewrite run_unfold. cbn [snd]. unfold console_of, created.
  induction evs as [| ev evs IH]; [reflexivity |].
  cbn [fmap list_fmap flat_map List.filter].
  rewrite length_app, IH. unfold step at 1 3. cbn [snd].
  rewrite console_length.
  by destruct (Response.status _ =? 201).
Qed.

(** X8: only GET /api/profile looks at who the caller is.  On every
    other route two admitted requests with the same body, served at the
    same clock reading, get the same outcome, whatever their identities
    and roles. *)
Theorem caller_matters_only_for_profile (srv : Server) (now : Z)
    (ep : Endpoint) (req1 req2 : Request.t) (user1 user2 : Identity) :
  ep <> GET_profile ->
  fakeAuth (db srv) req1 = Next user1 ->
  fakeAuth (db srv) req2 = Next user2 ->
  Request.body req1 = Request.body req2 ->
  serve rt srv now ep req1 = serve rt srv now ep req2.
Proof.
  intros Hep H1 H2 Hbody.
  rewrite (serve_Next _ _ _ _ _ _ H1), (serve_Next _ _ _ _ _ _ H2).
  destruct ep; cbn [handler]; try done.
  - unfold add_car.
    by rewrite (validationResult_body _ _ _ Hbody), Hbody.
  - unfold add_appointment.
    by rewrite (validationResult_body _ _ _ Hbody), Hbody.
Qed.



(** X10: an admitted request with an empty body is refused by both POST
    routes with status 400.  The car route lists its five entries in the
    order the rules are declared; the appointment route lists the two
    presence entries, followed by the date entry unless the ISO-8601
    check accepts the empty string. *)
Theorem empty_body_refused (srv : Server) (now : Z) (req : Request.t)
    (user : Identity) :
  fakeAuth (db srv) req = Next user ->
  Request.body req = ∅ ->
  serve rt srv now POST_profile_cars req
    = quiet (Response.mk 400
        (Errors [ FieldError.mk "make" "Make is required";
                  FieldError.mk "model" "Model is required";
                  FieldError.mk "year" "Please enter a valid year";
                  FieldError.mk "color" "Color is required";
                  FieldError.mk "licensePlate" "License plate is required" ]))
  /\ serve rt srv now POST_appointments req
     = quiet (Response.mk 400
         (Errors
            (FieldError.mk "carId" "Car selection is required"
             :: FieldError.mk "offeringId" "Service selection is required"
             :: if Runtime.isISO8601 rt ""
                then []
                else [FieldError.mk "scheduledTime"
                        "A valid date and time is required"]))).
Proof.
  intros Hauth Hbody.
  rewrite !(serve_Next _ _ _ _ _ _ Hauth). cbn [handler].
  unfold add_car, add_appointment, validationResult, run_chain.
  cbn [car_chains appointment_chains flat_map path validator].
  rewrite Hbody, !lookup_empty. cbn [toString accepts].
  split; [reflexivity |].
  cbn. by destruct (Runtime.isISO8601 rt "").
Qed.

(** X11: a car payload whose make, model, color and licensePlate are
    strings and whose year is an integer-valued number is accepted (201)
    exactly when
    the four strings are non-empty and the year lies between 1980 and the
    year bound, both included; otherwise it is refused with 400. *)
Theorem add_car_accepts_iff (srv : Server) (now : Z) (req : Request.t)
    (user : Identity) (make model color plate : string) (y : Z) :
  fakeAuth (db srv) req = Next user ->
  Request.body req !! "make" = Some (JStr make) ->
  Request.body req !! "model" = Some (JStr model) ->
  Request.body req !! "year" = Some (JNum y) ->
  Request.body req !! "color" = Some (JStr color) ->
  Request.body req !! "licensePlate" = Some (JStr plate) ->
  let status :=
    Response.status
      (Outcome.response (serve rt srv now POST_profile_cars req)) in
  (status = 201 <->
   make <> "" /\ model <> "" /\ color <> "" /\ plate <> ""
   /\ 1980 <= y <= maxYear srv)
  /\ (status = 201 \/ status = 400).
Proof.
  intros Hauth Hmake Hmodel Hyear Hcolor Hplate status. subst status.
  rewrite (serve_Next _ _ _ _ _ _ Hauth). cbn [handler].
  unfold add_car, validationResult, run_chain.
  cbn [car_chains flat_map path validator].
  rewrite Hmake, Hmodel, Hyear, Hcolor, Hplate. cbn [toString accepts].
  rewrite parse_int_pretty.
  destruct (decide (make = "")) as [-> | ?];
    [cbn; split; [split; [discriminate | tauto] | by right] |].
  rewrite (bool_decide_false (make = "")) by done.
  destruct (decide (model = "")) as [-> | ?];
    [cbn; split; [split; [discriminate | tauto] | by right] |].
  rewrite (bool_decide_false (model = "")) by done.
  destruct (decide (color = "")) as [-> | ?];
    [destruct (_ && _); cbn;
     (split; [split; [discriminate | tauto] | by right]) |].
  rewrite (bool_decide_false (color = "")) by done.
  destruct (decide (plate = "")) as [-> | ?];
    [destruct (_ && _); cbn;
     (split; [split; [discriminate | tauto] | by right]) |].
  rewrite (bool_decide_false (plate = "")) by done.
  destruct (Z.leb_spec 1980 y), (Z.leb_spec y (maxYear srv)); cbn;
    (split; [split; [try discriminate; intros; repeat split; done || lia
                    | try done; intros; lia]
            | by (left + right)]).
Qed.

End WritesMore.

Lemma caller_matters_only_for_profile_witness :
  let req1 := Sample.request "customer@carshop.com" Sample.yaris in
  let req2 := Sample.request "employee@carshop.com" Sample.yaris in
  POST_profile_cars <> GET_profile
  /\ fakeAuth (db Sample.server) req1 = Next (Own user_1)
  /\ fakeAuth (db Sample.server) req2 = Next (Own user_2)
  /\ serve Sample.runtime Sample.server 1768464000123 POST_profile_cars req1
     = serve Sample.runtime Sample.server 1768464000123 POST_profile_cars
         req2.
Proof.
  intros req1 req2.
  assert (POST_profile_cars <> GET_profile) as Hep by discriminate.
  assert (fakeAuth (db Sample.server) req1 = Next (Own user_1)) as H1
    by reflexivity.
  assert (fakeAuth (db Sample.server) req2 = Next (Own user_2)) as H2
    by reflexivity.
  split; [exact Hep | split; [exact H1 | split; [exact H2 |]]].
  exact (caller_matters_only_for_profile Sample.runtime Sample.server
           1768464000123 POST_profile_cars req1 req2 (Own user_1)
           (Own user_2) Hep H1 H2 eq_refl).
Defined.


Lemma empty_body_refused_witness :
  let req := Sample.request "owner@carshop.com" ∅ in
  fakeAuth (db Sample.server) req = Next (Own user_3)
  /\ Request.body req = ∅
  /\ serve Sample.runtime Sample.server 0 POST_appointments req
     = quiet (Response.mk 400
         (Errors
            [ FieldError.mk "carId" "Car selection is required";
              FieldError.mk "offeringId" "Service selection is required";
              FieldError.mk "scheduledTime"
                "A valid date and time is required" ])).
Proof.
  intros req.
  assert (fakeAuth (db Sample.server) req = Next (Own user_3)) as Hauth
    by reflexivity.
  split; [exact Hauth | split; [reflexivity |]].
  exact (proj2 (empty_body_refused Sample.runtime Sample.server 0 req
                  (Own user_3) Hauth eq_refl)).
Defined.

Lemma add_car_accepts_iff_witness :
  let req := Sample.request "customer@carshop.com" Sample.yaris in
  fakeAuth (db Sample.server) req = Next (Own user_1)
  /\ Request.body req !! "year" = Some (JNum 2021)
  /\ Response.status
       (Outcome.response
          (serve Sample.runtime Sample.server 0 POST_profile_cars req))
     = 201.
Proof.
  intros req.
  assert (fakeAuth (db Sample.server) req = Next (Own user_1)) as Hauth
    by reflexivity.
  split; [exact Hauth | split; [reflexivity |]].
  destruct (add_car_accepts_iff Sample.runtime Sample.server 0 req
              (Own user_1) "Toyota" "Yaris" "Blue" "MH01AA0001" 2021
              Hauth eq_refl eq_refl eq_refl eq_refl eq_refl) as [[_ H] _].
  apply H. repeat split; discriminate.
Defined.
